(** * er-LP dashboard: note lifecycle and landing-page reset thunks

    A shallow embedding of [src/store/dashboard/thunks.js] and of the
    [heroSection] slice, with the Redux store as explicit state, the remote
    document store and the upload service as an environment of replies, and
    every dispatched action and remote call recorded in a log. *)

From Stdlib Require Import Ascii.
From stdpp Require Import gmap strings list fin_maps pretty.

Set Warnings "-register-all".

(** ** JavaScript values *)

(** The values that travel through the thunks: note fields, Firestore
    document data, the user id.  Objects are finite maps from property
    names to values.  Numbers are left out: no code path inspects one. *)
Inductive value :=
| VUndefined
| VNull
| VBool (b : bool)
| VStr (s : string)
| VArr (l : list value)
| VObj (o : gmap string value).

Abbreviation obj := (gmap string value).

(** [ToBoolean], as used by [!uid]. *)
Definition truthy (v : value) : bool :=
  match v with
  | VUndefined | VNull => false
  | VBool b => b
  | VStr EmptyString => false
  | VStr (String _ _) => true
  | VArr _ | VObj _ => true
  end.

(** [ToString], as used by a template literal [`${v}`]. *)
Fixpoint to_string (v : value) : string :=
  match v with
  | VUndefined => "undefined"
  | VNull => "null"
  | VBool true => "true"
  | VBool false => "false"
  | VStr s => s
  | VArr l =>
      (fix join (l : list value) : string :=
         match l with
         | [] => EmptyString
         | x :: r =>
             let e := match x with
                      | VUndefined | VNull => EmptyString
                      | _ => to_string x
                      end in
             match r with
             | [] => e
             | _ :: _ => e +:+ "," +:+ join r
             end
         end) l
  | VObj _ => "[object Object]"
  end.

(** Property read [v.p]: [None] stands for a thrown TypeError (the base is
    [undefined] or [null]); a missing property reads as [undefined]. *)
Definition get_prop (v : value) (p : string) : option value :=
  match v with
  | VUndefined | VNull => None
  | VObj o => Some (default VUndefined (o !! p))
  | VBool _ | VStr _ | VArr _ => Some VUndefined
  end.

(** [x === 'literal'] for a string literal. *)
Definition strict_eq_str (v : value) (s : string) : bool :=
  match v with
  | VStr t => String.eqb t s
  | _ => false
  end.

(** ** Errors *)

(** Errors raised by the JavaScript runtime, by Redux or by the Firestore
    SDK itself; their message text depends on the engine and library
    version and is supplied by the environment. *)
Inductive runtime_error :=
| ReadOfNullish (base : value) (prop : string)
| NotCallable
| NullishReceiver
| NotAnAction
| InvalidSegment (path : string)
| InvalidReference (segs : list string).

Inductive exn :=
| Error (msg : string)
| Runtime (r : runtime_error).

(** ** Store state *)

Record AuthState := mkAuth { uid : value }.

Record DashboardState := mkDashboard {
  isSaving : bool;
  isCanceling : bool;
  notes : list obj;
  active : option obj;
  errorMessage : option string;
  activeSection : value;
}.

Record HeroSectionState := mkHero {
  hero_isSaving : bool;
  hero_info : obj;
}.

Record RootState := mkRoot {
  auth : AuthState;
  dashboard : DashboardState;
  heroSection : HeroSectionState;
  landing : obj;
}.

Inductive SectionKey :=
| navbar | heroSectionKey | history | programStructure
| expeditionGroup | events | organization | footer.

Definition key_name (k : SectionKey) : string :=
  match k with
  | navbar => "navbar"
  | heroSectionKey => "heroSection"
  | history => "history"
  | programStructure => "programStructure"
  | expeditionGroup => "expeditionGroup"
  | events => "events"
  | organization => "organization"
  | footer => "footer"
  end.

Definition all_keys : list SectionKey :=
  [navbar; heroSectionKey; history; programStructure;
   expeditionGroup; events; organization; footer].

(** ** Actions *)

Inductive Action :=
| savingNewNote
| setSaving
| resetIsSaving
| setCanceling
| resetIsCanceling
| setNotes (l : list obj)
| setActiveNote (n : obj)
| setPhotosToActiveNote (urls : list string)
| handleError (msg : string)
| setActiveSection (v : value)
| setSavingHeroSection
| resetSavingHeroSection
| setSectionInfo (k : SectionKey) (payload : value).

Definition setNavbarInfo := setSectionInfo navbar.
Definition setHeroSectionInfo := setSectionInfo heroSectionKey.
Definition setHistoryInfo := setSectionInfo history.
Definition setProgramStructureInfo := setSectionInfo programStructure.
Definition setExpeditionGroupInfo := setSectionInfo expeditionGroup.
Definition setEventsInfo := setSectionInfo events.
Definition setOrganizationInfo := setSectionInfo organization.
Definition setFooterInfo := setSectionInfo footer.

(** ** Reducers *)

(** [Array.prototype.find] with the callback [(item) => item.id === x]:
    the first element whose [id] is the string [x], [undefined] when there
    is none.  Reading [id] of a [null] or [undefined] element throws. *)
Fixpoint find_by_id (x : string) (l : list value) : exn + value :=
  match l with
  | [] => inr VUndefined
  | item :: r =>
      match get_prop item "id" with
      | None => inl (Runtime (ReadOfNullish item "id"))
      | Some i => if strict_eq_str i x then inr item else find_by_id x r
      end
  end.

(** [action.payload.find(...)]: only an array has a callable [find];
    document data never holds a function. *)
Definition payload_find (x : string) (payload : value) : exn + value :=
  match payload with
  | VArr l => find_by_id x l
  | VUndefined | VNull => inl (Runtime (ReadOfNullish payload "find"))
  | VBool _ | VStr _ | VObj _ => inl (Runtime NotCallable)
  end.

(** [heroSectionSlice] of the source.  A reducer that throws leaves the
    state as it was: the draft is dropped. *)
Definition heroSectionSlice (s : HeroSectionState) (a : Action)
  : exn + HeroSectionState :=
  match a with
  | setSavingHeroSection => inr (mkHero true (hero_info s))
  | setSectionInfo heroSectionKey payload =>
      match payload_find "imageSection" payload with
      | inl e => inl e
      | inr img =>
          match payload_find "textSection" payload with
          | inl e => inl e
          | inr txt =>
              inr (mkHero (hero_isSaving s)
                     (<["textSection" := txt]>
                        (<["imageSection" := img]> (hero_info s))))
          end
      end
  | resetSavingHeroSection => inr (mkHero false (hero_info s))
  | _ => inr s
  end.

(** The attachment list of a note: its [imagesUrls] array. *)
Definition attachments (n : obj) : list value :=
  match n !! "imagesUrls" with
  | Some (VArr l) => l
  | _ => []
  end.

(** Modelled from the spec: [dashboardSlice] is not among the sources.
    The spec's action list (section 6) and data model (section 3) give each
    action one effect: the saving and canceling flags are set and reset,
    [setNotes] replaces the whole collection, [setActiveNote] installs the
    active note, [setPhotosToActiveNote] appends the urls to the active
    note's attachment list, [handleError] records the message and
    [setActiveSection] records the content. *)
Definition dashboardSlice (s : DashboardState) (a : Action) : DashboardState :=
  match a with
  | savingNewNote | setSaving =>
      mkDashboard true (isCanceling s) (notes s) (active s)
        (errorMessage s) (activeSection s)
  | resetIsSaving =>
      mkDashboard false (isCanceling s) (notes s) (active s)
        (errorMessage s) (activeSection s)
  | setCanceling =>
      mkDashboard (isSaving s) true (notes s) (active s)
        (errorMessage s) (activeSection s)
  | resetIsCanceling =>
      mkDashboard (isSaving s) false (notes s) (active s)
        (errorMessage s) (activeSection s)
  | setNotes l =>
      mkDashboard (isSaving s) (isCanceling s) l (active s)
        (errorMessage s) (activeSection s)
  | setActiveNote n =>
      mkDashboard (isSaving s) (isCanceling s) (notes s) (Some n)
        (errorMessage s) (activeSection s)
  | setPhotosToActiveNote urls =>
      match active s with
      | None => s
      | Some n =>
          mkDashboard (isSaving s) (isCanceling s) (notes s)
            (Some (<["imagesUrls" := VArr (attachments n ++ (VStr <$> urls))]> n))
            (errorMessage s) (activeSection s)
      end
  | handleError msg =>
      mkDashboard (isSaving s) (isCanceling s) (notes s) (active s)
        (Some msg) (activeSection s)
  | setActiveSection v =>
      mkDashboard (isSaving s) (isCanceling s) (notes s) (active s)
        (errorMessage s) v
  | _ => s
  end.

(** Modelled from the spec: the slices of the seven other landing-page
    sections are not among the sources.  Section 3 of the spec has the
    content as a mapping from section key to an arbitrary document, each
    content-set action storing the document under its key. *)
Definition landingSlices (m : obj) (a : Action) : obj :=
  match a with
  | setSectionInfo heroSectionKey _ => m
  | setSectionInfo k payload => <[key_name k := payload]> m
  | _ => m
  end.

(** The store's root reducer: every slice sees every action. *)
Definition rootReducer (s : RootState) (a : Action) : exn + RootState :=
  match heroSectionSlice (heroSection s) a with
  | inl e => inl e
  | inr h =>
      inr (mkRoot (auth s) (dashboardSlice (dashboard s) a) h
             (landingSlices (landing s) a))
  end.

(** ** The world outside the store *)

Record File := mkFile { file_name : string }.

Inductive Call :=
| SetDoc (path : string) (body : obj) (merge : bool)
| DeleteDoc (path : string)
| GetDoc (path : string)
| LoadNotes (u : value)
| FileUpload (f : File).

(** What an operation does, in the order it does it. *)
Inductive Event :=
| Dispatched (a : Action)
| DispatchedThunk
| DispatchedValue (v : value)
| Called (c : Call)
| Unhandled (e : exn).

(** The replies of everything the thunks do not control: the clock, the
    document store, and the helpers [loadNotes] and [fileUpload], which are
    not among the sources and are known here by their replies only.  A
    fault is the message of the rejection; an upload reply carries the
    instant at which it settles, so that the first rejection of a batch is
    determined. *)
Record Env := mkEnv {
  clock : string;
  autoId : string;
  setDoc_fault : string → obj → option string;
  deleteDoc_fault : string → option string;
  getDoc_fault : string → option string;
  loadNotes_reply : value → string + list obj;
  fileUpload_reply : nat → File → nat * (string + string);
  runtime_message : runtime_error → string;
  foreign_action : obj → RootState → exn + RootState;
}.

Record World := mkWorld {
  store : RootState;
  remote : gmap string obj;
  log : list Event;
  inflight : list value;
}.

Definition init (s : RootState) (r : gmap string obj) : World :=
  mkWorld s r [] [].

(** ** A monad for thunk bodies: state, log and exceptions *)

Inductive completion (A : Type) :=
| Normal (a : A)
| Throw (e : exn).
Arguments Normal {A} a.
Arguments Throw {A} e.

Definition M (A : Type) : Type := World → completion A * World.

#[global] Instance M_ret : MRet M := λ A a w, (Normal a, w).
#[global] Instance M_bind : MBind M := λ A B f m w,
  match m w with
  | (Normal a, w') => f a w'
  | (Throw e, w') => (Throw e, w')
  end.

Definition throw {A} (e : exn) : M A := λ w, (Throw e, w).

Definition getState : M RootState := λ w, (Normal (store w), w).

Definition emit (e : Event) : M unit := λ w,
  (Normal tt, mkWorld (store w) (remote w) (log w ++ [e]) (inflight w)).

Definition setState (s : RootState) : M unit := λ w,
  (Normal tt, mkWorld s (remote w) (log w) (inflight w)).

Definition setRemote (r : gmap string obj) : M unit := λ w,
  (Normal tt, mkWorld (store w) r (log w) (inflight w)).

Definition getRemote : M (gmap string obj) := λ w, (Normal (remote w), w).

(** [try { body } catch (error) { handler }] *)
Definition try_catch {A} (body : M A) (handler : exn → M A) : M A := λ w,
  match body w with
  | (Normal a, w') => (Normal a, w')
  | (Throw e, w') => handler e w'
  end.

(** [try { body } finally { cleanup }]: the cleanup runs on both exits, and an
    exception of its own replaces the completion of the body. *)
Definition try_finally {A} (body : M A) (cleanup : M unit) : M A := λ w,
  match body w with
  | (c, w') =>
      match cleanup w' with
      | (Normal _, w'') => (c, w'')
      | (Throw e, w'') => (Throw e, w'')
      end
  end.

Definition try_catch_finally {A} (body : M A) (handler : exn → M A)
    (cleanup : M unit) : M A :=
  try_finally (try_catch body handler) cleanup.

(** [dispatch(action)] for an action built by an action creator: the root
    reducer runs at once, and what a reducer throws reaches the caller. *)
Definition dispatch (a : Action) : M unit :=
  emit (Dispatched a);;
  s ← getState;
  match rootReducer s a with
  | inl e => throw e
  | inr s' => setState s'
  end.

(** The outcome of the promise an [async] thunk returns. *)
Inductive Outcome :=
| Resolved
| Rejected (e : exn).

Definition run (m : M unit) (w : World) : Outcome * World :=
  match m w with
  | (Normal _, w') => (Resolved, w')
  | (Throw e, w') => (Rejected e, w')
  end.

(** Raising what a pure step returned. *)
Definition lift {A} (r : exn + A) : M A := λ w,
  match r with
  | inl e => (Throw e, w)
  | inr a => (Normal a, w)
  end.

(** ** Firestore references

    [collection(FirebaseDB, path)] and [doc(FirebaseDB, path)] check the path
    they are given before anything is sent: the path must not contain two
    slashes in a row, its empty segments (a leading or trailing slash) are
    dropped, and what is left must have an odd number of segments for a
    collection and an even number for a document.  A reference is known by
    its segments. *)

(** [path.split('/')] *)
Fixpoint split_path (path : string) : list string :=
  match path with
  | EmptyString => [EmptyString]
  | String c rest =>
      if Ascii.eqb c "/"%char then EmptyString :: split_path rest
      else match split_path rest with
           | [] => [String c EmptyString]
           | p :: ps => String c p :: ps
           end
  end.

(** [path.indexOf('//') >= 0] *)
Fixpoint has_double_slash (path : string) : bool :=
  match path with
  | EmptyString => false
  | String c rest =>
      (Ascii.eqb c "/"%char &&
       match rest with
       | String d _ => Ascii.eqb d "/"%char
       | EmptyString => false
       end)
      || has_double_slash rest
  end.

(** [path.split('/').filter(segment => segment.length > 0)] *)
Definition segments (path : string) : list string :=
  filter (λ p, p ≠ EmptyString) (split_path path).

(** [ResourcePath.fromString(path)] *)
Definition fromString (path : string) : exn + list string :=
  if has_double_slash path then inl (Runtime (InvalidSegment path))
  else inr (segments path).

Definition collection (path : string) : exn + list string :=
  match fromString path with
  | inl e => inl e
  | inr segs =>
      if Nat.even (length segs) then inl (Runtime (InvalidReference segs))
      else inr segs
  end.

Definition doc (path : string) : exn + list string :=
  match fromString path with
  | inl e => inl e
  | inr segs =>
      if Nat.even (length segs) then inr segs
      else inl (Runtime (InvalidReference segs))
  end.

(** The path of a reference, its segments joined by slashes: the key of the
    document in the store. *)
Fixpoint canonicalString (segs : list string) : string :=
  match segs with
  | [] => EmptyString
  | [p] => p
  | p :: ps => p +:+ "/" +:+ canonicalString ps
  end.

(** [doc(FirebaseDB, path)], down to the path of the reference. *)
Definition doc_path (path : string) : exn + string :=
  match doc path with
  | inl e => inl e
  | inr segs => inr (canonicalString segs)
  end.

(** A string that is one segment of a path: not empty, no slash. *)
Fixpoint has_slash (p : string) : bool :=
  match p with
  | EmptyString => false
  | String c rest => Ascii.eqb c "/"%char || has_slash rest
  end.

Definition single_segment (p : string) : Prop :=
  p ≠ EmptyString ∧ has_slash p = false.

Fixpoint ends_with_slash (p : string) : bool :=
  match p with
  | EmptyString => false
  | String c EmptyString => Ascii.eqb c "/"%char
  | String _ rest => ends_with_slash rest
  end.

(** ** The thunks *)

Section Thunks.
Variable env : Env.

(** [error.message] *)
Definition message (e : exn) : string :=
  match e with
  | Error msg => msg
  | Runtime r => runtime_message env r
  end.

(** *** Remote store adapter

    The contract the spec assumes of the document store (section 6): a
    write either fails with a message or replaces the document, merging
    with the stored fields when asked to.  Documents are kept under the
    path of their reference. *)
Definition merge_fields (body old : obj) : obj := body ∪ old.

Definition setDoc (path : string) (body : obj) (merge : bool) : M unit :=
  emit (Called (SetDoc path body merge));;
  match setDoc_fault env path body with
  | Some msg => throw (Error msg)
  | None =>
      r ← getRemote;
      setRemote
        (<[path := if merge then merge_fields body (default ∅ (r !! path))
                   else body]> r)
  end.

Definition deleteDoc (path : string) : M unit :=
  emit (Called (DeleteDoc path));;
  match deleteDoc_fault env path with
  | Some msg => throw (Error msg)
  | None => r ← getRemote; setRemote (delete path r)
  end.

(** [(await getDoc(docRef)).data()]: [undefined] when there is no such
    document. *)
Definition getDoc_data (path : string) : M value :=
  emit (Called (GetDoc path));;
  match getDoc_fault env path with
  | Some msg => throw (Error msg)
  | None =>
      r ← getRemote;
      mret (match r !! path with
            | Some o => VObj o
            | None => VUndefined
            end)
  end.

(** *** startLoadingNotes

    Up to its [await] the thunk checks the user id and issues the fetch;
    when the reply is in, it installs the notes or reports the failure. *)
Definition startLoadingNotes_issue : M value :=
  s ← getState;
  let uid := uid (auth s) in
  if negb (truthy uid) then throw (Error "El UID del usuario no existe!")
  else emit (Called (LoadNotes uid));; mret uid.

Definition startLoadingNotes_settle (uid : value) : M unit :=
  try_catch
    (match loadNotes_reply env uid with
     | inr notes => dispatch (setNotes notes)
     | inl msg => throw (Error msg)
     end)
    (λ error,
       dispatch (handleError (message error));;
       throw (Error "Error cargando notas de la DB!")).

Definition startLoadingNotes : M unit :=
  uid ← startLoadingNotes_issue;
  startLoadingNotes_settle uid.

(** [dispatch(startLoadingNotes())] inside another thunk: the promise is
    not awaited.  The thunk runs up to its [await]; a fetch it issued
    stays in flight, and a rejection has no observer. *)
Definition dispatch_startLoadingNotes : M unit := λ w,
  match (emit DispatchedThunk;; startLoadingNotes_issue) w with
  | (Normal uid, w') =>
      (Normal tt,
       mkWorld (store w') (remote w') (log w') (inflight w' ++ [uid]))
  | (Throw e, w') =>
      (Normal tt,
       mkWorld (store w') (remote w') (log w' ++ [Unhandled e]) (inflight w'))
  end.

(** The fetches in flight settle after the thunk that started them. *)
Definition settle_one (uid : value) (w : World) : World :=
  match startLoadingNotes_settle uid w with
  | (Normal _, w') => w'
  | (Throw e, w') =>
      mkWorld (store w') (remote w') (log w' ++ [Unhandled e]) (inflight w')
  end.

Definition settle_inflight (w : World) : World :=
  foldl (λ w uid, settle_one uid w)
    (mkWorld (store w) (remote w) (log w) []) (inflight w).

(** *** startNewNote *)

(** The note literal, for a collection of [n] notes. *)
Definition newNote (n : nat) : obj :=
  {[ "title" := VStr ("Nota " +:+ pretty (n + 1));
     "body" := VStr ("Body " +:+ pretty (n + 1));
     "date" := VStr (clock env);
     "imagesUrls" := VArr [] ]}.

(** The path handed to [collection]. *)
Definition notesCollection (uid : value) : string :=
  to_string uid +:+ "/journal/notes".

(** [doc(collection(FirebaseDB, `${uid}/journal/notes`))], down to its path:
    the segments of the collection followed by the fresh id.  The id is
    the one the SDK generates, twenty letters and digits, so it is a
    segment of its own. *)
Definition newDoc (uid : value) : string :=
  canonicalString (segments (notesCollection uid) ++ [autoId env]).

Definition startNewNote : M unit :=
  s ← getState;
  let notes := notes (dashboard s) in
  dispatch savingNewNote;;
  s ← getState;
  let uid := uid (auth s) in
  let newNote := newNote (length notes) in
  lift (collection (notesCollection uid));;
  let newDoc := newDoc uid in
  try_catch_finally
    (setDoc newDoc newNote false;;
     let newNote := <["id" := VStr (autoId env)]> newNote in
     dispatch_startLoadingNotes;;
     dispatch (setActiveNote newNote))
    (λ error,
       dispatch (handleError (message error));;
       throw (Error "Error guardando nueva entrada en la DB!"))
    (dispatch resetIsSaving).

(** [activeNote.id]: throws when there is no active note. *)
Definition active_id (activeNote : option obj) : M value :=
  match activeNote with
  | None => throw (Runtime (ReadOfNullish VNull "id"))
  | Some n => mret (default VUndefined (n !! "id"))
  end.

(** The path handed to [doc]: [`${uid}/journal/notes/${id}`]. *)
Definition noteDocRef (uid id : value) : string :=
  to_string uid +:+ "/journal/notes/" +:+ to_string id.

(** *** startSaveNotes *)

(** [{...activeNote}] followed by [delete noteToFireStore.id]; spreading
    [null] gives the empty object. *)
Definition noteToFireStore (activeNote : option obj) : obj :=
  delete "id" (default ∅ activeNote).

Definition startSaveNotes : M unit :=
  try_catch_finally
    (dispatch setSaving;;
     s ← getState;
     let uid := uid (auth s) in
     let activeNote := active (dashboard s) in
     let noteToFireStore := noteToFireStore activeNote in
     id ← active_id activeNote;
     docRef ← lift (doc_path (noteDocRef uid id));
     setDoc docRef noteToFireStore true;;
     dispatch_startLoadingNotes)
    (λ error,
       dispatch (handleError (message error));;
       throw (Error "Error actualizando Note!!"))
    (dispatch resetIsSaving).

(** *** startUploadingFiles *)

(** The loop that calls [fileUpload] on every file, in order. *)
Fixpoint issue_uploads (i : nat) (files : list File)
  : M (list (nat * (string + string))) :=
  match files with
  | [] => mret []
  | f :: rest =>
      emit (Called (FileUpload f));;
      rs ← issue_uploads (S i) rest;
      mret (fileUpload_reply env i f :: rs)
  end.

(** The rejection that settles first; of two at the same instant, the one
    issued first. *)
Fixpoint earliest_rejection (rs : list (nat * (string + string)))
  : option (nat * string) :=
  match rs with
  | [] => None
  | (t, inl msg) :: rest =>
      match earliest_rejection rest with
      | Some (t', msg') => if t' <? t then Some (t', msg') else Some (t, msg)
      | None => Some (t, msg)
      end
  | (_, inr _) :: rest => earliest_rejection rest
  end.

Definition upload_replies (files : list File)
  : list (nat * (string + string)) :=
  imap (fileUpload_reply env) files.

Definition fulfilled (rs : list (nat * (string + string))) : list string :=
  omap (λ r, match r.2 with inr url => Some url | inl _ => None end) rs.

(** [await Promise.all(promises)] *)
Definition promise_all (rs : list (nat * (string + string)))
  : M (list string) :=
  match earliest_rejection rs with
  | Some (_, msg) => throw (Error msg)
  | None => mret (fulfilled rs)
  end.

Definition startUploadingFiles (files : list File) : M unit :=
  try_catch_finally
    (dispatch setSaving;;
     fileUploadPromises ← issue_uploads 0 files;
     photosUrls ← promise_all fileUploadPromises;
     dispatch (setPhotosToActiveNote photosUrls))
    (λ error,
       dispatch (handleError (message error));;
       throw (Error "Error subiendo imagen!!"))
    (dispatch resetIsSaving).

(** *** startDeletingNote

    The one note thunk whose [try] has a [catch] and no [finally]. *)
Definition startDeletingNote : M unit :=
  try_catch
    (dispatch setSaving;;
     s ← getState;
     let uid := uid (auth s) in
     let noteActive := active (dashboard s) in
     id ← active_id noteActive;
     docRef ← lift (doc_path (noteDocRef uid id));
     deleteDoc docRef;;
     dispatch_startLoadingNotes)
    (λ error,
       dispatch (handleError (message error));;
       throw (Error "Error eliminando nota!!")).
End Thunks.

(** ** resetInfo and its dispatch table *)

(** [idToDispatchMap] is an object literal, so [idToDispatchMap[section]]
    also finds what every object inherits from [Object.prototype]. *)
Definition registered_handler (section : string) : option SectionKey :=
  snd <$> list_find (λ k, key_name k = section) all_keys.

Definition object_prototype_members : list string :=
  ["constructor"; "__defineGetter__"; "__defineSetter__"; "hasOwnProperty";
   "__lookupGetter__"; "__lookupSetter__"; "isPrototypeOf";
   "propertyIsEnumerable"; "toString"; "valueOf"; "__proto__";
   "toLocaleString"].

Inductive table_entry :=
| Handler (k : SectionKey)
| Inherited (member : string)
| NoEntry.

Definition idToDispatchMap (section : string) : table_entry :=
  match registered_handler section with
  | Some k => Handler k
  | None =>
      if bool_decide (section ∈ object_prototype_members)
      then Inherited section
      else NoEntry
  end.

(** [dispatchAction(infoReset)] when [dispatchAction] is an inherited member,
    called without a receiver: [__proto__] is no function; [toString]
    answers for the missing receiver; [constructor] is [Object], which
    returns an object argument as it is and a fresh empty object for
    [undefined] and [null] (a primitive is boxed, and [dispatch] refuses the
    box as it refuses the primitive); [isPrototypeOf] answers [false] to a
    primitive before it looks at its receiver; the others convert the
    receiver first and throw. *)
Definition call_inherited (member : string) (arg : value) : exn + value :=
  if String.eqb member "__proto__" then inl (Runtime NotCallable)
  else if String.eqb member "toString" then inr (VStr "[object Undefined]")
  else if String.eqb member "constructor" then
    inr (match arg with
         | VUndefined | VNull => VObj ∅
         | _ => arg
         end)
  else if String.eqb member "isPrototypeOf" then
    match arg with
    | VObj _ | VArr _ => inl (Runtime NullishReceiver)
    | _ => inr (VBool false)
    end
  else inl (Runtime NullishReceiver).

Section ResetInfo.
Variable env : Env.

(** [dispatch(v)] for a value no action creator built: Redux refuses what
    is not a plain object with a [type]; how the store's reducers answer
    an action object from a document is the environment's. *)
Definition dispatch_value (v : value) : M unit :=
  emit (DispatchedValue v);;
  match v with
  | VObj o =>
      match o !! "type" with
      | None | Some VUndefined => throw (Runtime NotAnAction)
      | Some _ =>
          s ← getState;
          match foreign_action env o s with
          | inl e => throw e
          | inr s' => setState s'
          end
      end
  | _ => throw (Runtime NotAnAction)
  end.

(** The path handed to [doc]: [`er_landing_page/${section}`]. *)
Definition sectionDocRef (section : string) : string :=
  "er_landing_page/" +:+ section.

(** The thunk, with both arguments given; [console.log(cancelled)] leaves
    no trace here.  The three outcomes of the table lookup are the two
    branches of [if (dispatchAction)]: an absent entry is falsy, a handler
    and an inherited member are truthy and are called alike. *)
Definition resetInfo (section : string) (cancelled : bool) : M unit :=
  try_catch
    ((if cancelled then dispatch setCanceling else mret tt);;
     docRef ← lift (doc_path (sectionDocRef section));
     infoReset ← getDoc_data env docRef;
     match idToDispatchMap section with
     | NoEntry => mret tt
     | Handler k =>
         dispatch (setSectionInfo k infoReset);;
         dispatch (setActiveSection infoReset);;
         if cancelled then dispatch resetIsCanceling else mret tt
     | Inherited member =>
         match call_inherited member infoReset with
         | inl e => throw e
         | inr a =>
             dispatch_value a;;
             dispatch (setActiveSection infoReset);;
             if cancelled then dispatch resetIsCanceling else mret tt
         end
     end)
    (λ error,
       dispatch (handleError (message env error));;
       throw (Error "Error reseteando la informacion!!")).
End ResetInfo.

(** ** Concrete runs *)

Module Demo.
Definition env0 : Env :=
  mkEnv "1/11/2026, 10:00:00" "Zx81AbCdEfGhIjKlMnOp"
    (λ _ _, None) (λ _, None) (λ _, None)
    (λ _, inr [])
    (λ i f, (i, inr ("https://cdn.example/" +:+ file_name f)))
    (λ r, match r with
          | ReadOfNullish b p =>
              "Cannot read properties of " +:+ to_string b +:+
              " (reading '" +:+ p +:+ "')"
          | NotCallable => "is not a function"
          | NullishReceiver => "Cannot convert undefined or null to object"
          | NotAnAction => "Actions must be plain objects."
          | InvalidSegment p =>
              "Invalid segment (" +:+ p +:+
              "). Paths must not contain // in them."
          | InvalidReference segs =>
              "Invalid reference: " +:+ canonicalString segs +:+ " has " +:+
              pretty (length segs) +:+ " segments."
          end)
    (λ _ s, inr s).

Definition note1 : obj :=
  {[ "id" := VStr "n1"; "title" := VStr "Nota 1"; "body" := VStr "Body 1";
     "date" := VStr "1/11/2026, 09:00:00"; "imagesUrls" := VArr [] ]}.

Definition dash0 : DashboardState :=
  mkDashboard false false [note1] (Some note1) None VUndefined.

Definition root0 (u : value) : RootState :=
  mkRoot (mkAuth u) dash0 (mkHero false ∅) ∅.

(** As [env0], but the upload of the file named [f2] is rejected. *)
Definition env_f2_fails : Env :=
  mkEnv (clock env0) (autoId env0) (setDoc_fault env0) (deleteDoc_fault env0)
    (getDoc_fault env0) (loadNotes_reply env0)
    (λ i f, if String.eqb (file_name f) "f2" then (5, inl "413 too large")
            else (i, inr ("https://cdn.example/" +:+ file_name f)))
    (runtime_message env0) (foreign_action env0).

(** As [env0], but the store refuses every delete. *)
Definition env_delete_denied : Env :=
  mkEnv (clock env0) (autoId env0) (setDoc_fault env0)
    (λ _, Some "permission-denied") (getDoc_fault env0)
    (loadNotes_reply env0) (fileUpload_reply env0)
    (runtime_message env0) (foreign_action env0).

Definition three_files : list File :=
  [mkFile "f1"; mkFile "f2"; mkFile "f3"].
End Demo.

Arguments notesCollection : simpl never.
Arguments newDoc : simpl never.
Arguments noteDocRef : simpl never.
Arguments sectionDocRef : simpl never.

(** ** Observations on a run *)

Definition dispatched (w : World) : list Action :=
  omap (λ e, match e with Dispatched a => Some a | _ => None end) (log w).

Definition calls (w : World) : list Call :=
  omap (λ e, match e with Called c => Some c | _ => None end) (log w).

(** How many times [dispatch(startLoadingNotes())] was reached. *)
Definition reload_triggers (w : World) : nat :=
  length (omap (λ e, match e with DispatchedThunk => Some () | _ => None end)
            (log w)).

(** ** The operations, by name *)

Inductive Operation :=
| CreateNote
| LoadNotesOp
| SaveActiveNote
| UploadAttachments (files : list File)
| DeleteActiveNote
| ResetSectionInfo (section : string) (cancelled : bool).

Definition thunk (env : Env) (op : Operation) : M unit :=
  match op with
  | CreateNote => startNewNote env
  | LoadNotesOp => startLoadingNotes env
  | SaveActiveNote => startSaveNotes env
  | UploadAttachments files => startUploadingFiles env files
  | DeleteActiveNote => startDeletingNote env
  | ResetSectionInfo section cancelled => resetInfo env section cancelled
  end.

(** The message of the [new Error(...)] each operation throws from its
    [catch] block. *)
Definition failure_text (op : Operation) : string :=
  match op with
  | CreateNote => "Error guardando nueva entrada en la DB!"
  | LoadNotesOp => "Error cargando notas de la DB!"
  | SaveActiveNote => "Error actualizando Note!!"
  | UploadAttachments _ => "Error subiendo imagen!!"
  | DeleteActiveNote => "Error eliminando nota!!"
  | ResetSectionInfo _ _ => "Error reseteando la informacion!!"
  end.

(** [raises env s op msg]: started in state [s], [op] reaches its adapter
    call with a valid reference, and what it awaits there is rejected with
    [msg].  For a batch of uploads this is the rejection [Promise.all]
    passes on, the one that settles first. *)
Inductive raises (env : Env) (s : RootState) : Operation → string → Prop :=
| raises_create segs msg :
    collection (notesCollection (uid (auth s))) = inr segs →
    setDoc_fault env (newDoc env (uid (auth s)))
      (newNote env (length (notes (dashboard s)))) = Some msg →
    raises env s CreateNote msg
| raises_load msg :
    truthy (uid (auth s)) = true →
    loadNotes_reply env (uid (auth s)) = inl msg →
    raises env s LoadNotesOp msg
| raises_save n path msg :
    active (dashboard s) = Some n →
    doc_path (noteDocRef (uid (auth s)) (default VUndefined (n !! "id")))
    = inr path →
    setDoc_fault env path (noteToFireStore (Some n)) = Some msg →
    raises env s SaveActiveNote msg
| raises_upload files t msg :
    earliest_rejection (upload_replies env files) = Some (t, msg) →
    raises env s (UploadAttachments files) msg
| raises_delete n path msg :
    active (dashboard s) = Some n →
    doc_path (noteDocRef (uid (auth s)) (default VUndefined (n !! "id")))
    = inr path →
    deleteDoc_fault env path = Some msg →
    raises env s DeleteActiveNote msg
| raises_reset section cancelled path msg :
    doc_path (sectionDocRef section) = inr path →
    getDoc_fault env path = Some msg →
    raises env s (ResetSectionInfo section cancelled) msg.

(** [first_with_id x items v]: [v] is the first element of [items] whose
    [id] is the string [x], or [undefined] when no element has that id. *)
Definition first_with_id (x : string) (items : list obj) (v : value) : Prop :=
  (∃ i item,
      items !! i = Some item ∧ item !! "id" = Some (VStr x) ∧
      (∀ j other, j < i → items !! j = Some other →
                  other !! "id" ≠ Some (VStr x)) ∧
      v = VObj item)
  ∨ ((∀ item, item ∈ items → item !! "id" ≠ Some (VStr x)) ∧ v = VUndefined).

(** ** Further scenarios *)

(** [docSnap.data()] of the document at [path] in the store [r]. *)
Definition doc_data (r : gmap string obj) (path : string) : value :=
  match r !! path with
  | Some o => VObj o
  | None => VUndefined
  end.

Module Cases.
Definition env_setDoc_fails : Env :=
  mkEnv (clock Demo.env0) (autoId Demo.env0) (λ _ _, Some "unavailable")
    (deleteDoc_fault Demo.env0) (getDoc_fault Demo.env0)
    (loadNotes_reply Demo.env0) (fileUpload_reply Demo.env0)
    (runtime_message Demo.env0) (foreign_action Demo.env0).

Definition env_reload_fails : Env :=
  mkEnv (clock Demo.env0) (autoId Demo.env0) (setDoc_fault Demo.env0)
    (deleteDoc_fault Demo.env0) (getDoc_fault Demo.env0)
    (λ _, inl "offline") (fileUpload_reply Demo.env0)
    (runtime_message Demo.env0) (foreign_action Demo.env0).

Definition env_getDoc_fails : Env :=
  mkEnv (clock Demo.env0) (autoId Demo.env0) (setDoc_fault Demo.env0)
    (deleteDoc_fault Demo.env0) (λ _, Some "unavailable")
    (loadNotes_reply Demo.env0) (fileUpload_reply Demo.env0)
    (runtime_message Demo.env0) (foreign_action Demo.env0).

(** The first file fails late, the third fails early. *)
Definition env_two_failures : Env :=
  mkEnv (clock Demo.env0) (autoId Demo.env0) (setDoc_fault Demo.env0)
    (deleteDoc_fault Demo.env0) (getDoc_fault Demo.env0)
    (loadNotes_reply Demo.env0)
    (λ i f, if String.eqb (file_name f) "f1" then (9, inl "late failure")
            else if String.eqb (file_name f) "f3" then (2, inl "early failure")
            else (i, inr ("https://cdn.example/" +:+ file_name f)))
    (runtime_message Demo.env0) (foreign_action Demo.env0).

Definition root_no_active : RootState :=
  mkRoot (mkAuth (VStr "u1"))
    (mkDashboard false false [Demo.note1] None None VUndefined)
    (mkHero false ∅) ∅.

Definition navbar_doc : obj := {[ "logo" := VStr "logo.png" ]}.

Definition landing_store : gmap string obj :=
  {[ "er_landing_page/navbar" := navbar_doc ]}.

Definition image_item : obj :=
  {[ "id" := VStr "imageSection"; "url" := VStr "hero.png" ]}.
Definition text_item : obj :=
  {[ "id" := VStr "textSection"; "title" := VStr "Hola" ]}.
Definition hero_state : HeroSectionState :=
  mkHero false
    {[ "imageSection" := VObj image_item; "textSection" := VObj text_item ]}.
End Cases.

(** ** Proof support *)

Ltac unfold_m :=
  unfold run, settle_inflight, settle_one, try_catch_finally, lift,
    startLoadingNotes, dispatch_startLoadingNotes, startLoadingNotes_issue,
    startLoadingNotes_settle, promise_all, dispatch_value,
    setDoc, deleteDoc, getDoc_data, active_id, try_catch, try_finally,
    dispatch, emit, getState, setState, getRemote, setRemote, throw,
    mbind, M_bind, mret, M_ret, init;
  cbn.

(** Evaluating [doc] on a path that is given in full. *)
Ltac eval_doc_path :=
  repeat match goal with
  | |- context [doc_path ?p] =>
      let v := eval vm_compute in (doc_path p) in
      change (doc_path p) with v
  end.

Ltac case_scrutinee :=
  match goal with
  | |- context [match ?x with _ => _ end] =>
      lazymatch x with
      | context [match _ with _ => _ end] => fail
      | _ => destruct x eqn:?
      end
  end.

Ltac cases := repeat (case_scrutinee; cbn in *; simplify_eq).

(** ** Paths *)

Lemma string_app_assoc (a b c : string) : (a +:+ b) +:+ c = a +:+ (b +:+ c).
Proof.
  induction a as [|x a IH]; [reflexivity|].
  change (String x ((a +:+ b) +:+ c) = String x (a +:+ (b +:+ c))).
  by f_equal.
Qed.

Lemma split_path_nonnil s : split_path s ≠ [].
Proof.
  destruct s as [|c s]; cbn; [done|]. case_match; [done|]. by case_match.
Qed.

(** Splitting a path at one of its slashes. *)
Lemma split_path_app a b :
  split_path (a +:+ String "/" b) = split_path a ++ split_path b.
Proof.
  induction a as [|c a IH]; [done|].
  change (String c a +:+ String "/" b) with (String c (a +:+ String "/" b)).
  cbn [split_path]. rewrite IH. destruct (Ascii.eqb c "/"); [done|].
  destruct (split_path a) eqn:E; [by apply split_path_nonnil in E|done].
Qed.

Lemma segments_app a b :
  segments (a +:+ String "/" b) = segments a ++ segments b.
Proof. unfold segments. by rewrite split_path_app, filter_app. Qed.

Lemma split_path_no_slash p : has_slash p = false → split_path p = [p].
Proof.
  induction p as [|c p IH]; [done|]. cbn.
  intros [Hc Hp]%orb_false_elim. rewrite Hc, (IH Hp). done.
Qed.

Lemma segments_single p : single_segment p → segments p = [p].
Proof.
  intros [Hne Hs]. unfold segments. rewrite (split_path_no_slash _ Hs).
  by rewrite filter_cons_True, filter_nil.
Qed.

Lemma has_double_slash_no_slash p :
  has_slash p = false → has_double_slash p = false.
Proof.
  induction p as [|c p IH]; [done|]. cbn.
  intros [Hc Hp]%orb_false_elim. by rewrite Hc, (IH Hp).
Qed.

Lemma has_double_slash_app a b :
  has_double_slash (a +:+ String "/" b) =
  has_double_slash a || ends_with_slash a ||
  match b with String d _ => Ascii.eqb d "/"%char | EmptyString => false end ||
  has_double_slash b.
Proof.
  induction a as [|c a IH]; [done|].
  change (String c a +:+ String "/" b) with (String c (a +:+ String "/" b)).
  cbn [has_double_slash]. rewrite IH.
  destruct a as [|d a].
  - cbn. destruct (Ascii.eqb c "/"); cbn; done.
  - change (String d a +:+ String "/" b) with (String d (a +:+ String "/" b)).
    cbn [ends_with_slash].
    destruct (Ascii.eqb c "/"), (Ascii.eqb d "/"),
      (has_double_slash (String d a)), (ends_with_slash (String d a));
      cbn; done.
Qed.

Lemma ends_with_slash_app a b :
  b ≠ EmptyString → ends_with_slash (a +:+ b) = ends_with_slash b.
Proof.
  intros Hb. induction a as [|c a IH]; [done|].
  change (String c a +:+ b) with (String c (a +:+ b)).
  cbn [ends_with_slash]. destruct (a +:+ b) eqn:E; [|done].
  destruct a; [by cbn in E|done].
Qed.

(** A collection reference that is valid has the segments of its path. *)
Lemma collection_segments path segs :
  collection path = inr segs →
  segs = segments path ∧ has_double_slash path = false ∧
  Nat.even (length segs) = false.
Proof.
  unfold collection, fromString. destruct (has_double_slash path); [done|].
  destruct (Nat.even (length (segments path))) eqn:E; [done|].
  by intros [= <-].
Qed.

(** The document a fresh id names under the notes collection of a user is
    the document that [`${uid}/journal/notes/${id}`] names. *)
Lemma doc_path_new_note env uid segs :
  collection (notesCollection uid) = inr segs →
  single_segment (autoId env) →
  doc_path (noteDocRef uid (VStr (autoId env))) = inr (newDoc env uid).
Proof.
  intros Hc [Hne Hs]. apply collection_segments in Hc as (-> & Hd & Hev).
  assert (Hp : noteDocRef uid (VStr (autoId env))
               = notesCollection uid +:+ String "/" (autoId env)).
  { unfold noteDocRef, notesCollection. cbn [to_string].
    by rewrite string_app_assoc. }
  unfold doc_path, doc, fromString, newDoc. rewrite Hp.
  rewrite has_double_slash_app, Hd, (has_double_slash_no_slash _ Hs).
  unfold notesCollection at 1. rewrite ends_with_slash_app by done.
  change (ends_with_slash "/journal/notes") with false.
  assert (Hst : match autoId env with
                | String d _ => Ascii.eqb d "/"%char
                | EmptyString => false
                end = false).
  { destruct (autoId env) as [|d a]; [done|]. cbn in Hs.
    by apply orb_false_elim in Hs as [? ?]. }
  rewrite Hst. cbn [orb].
  rewrite segments_app, (segments_single (autoId env)) by done.
  rewrite length_app. cbn [length]. rewrite Nat.add_1_r, Nat.even_succ.
  rewrite <- Nat.negb_even, Hev. done.
Qed.

Lemma collection_undefined :
  collection (notesCollection VUndefined) = inr ["undefined"; "journal"; "notes"].
Proof. reflexivity. Qed.

Lemma collection_null :
  collection (notesCollection VNull) = inr ["null"; "journal"; "notes"].
Proof. reflexivity. Qed.

(** Without a user id at all the path of the collection has two segments,
    and [collection] refuses it. *)
Lemma collection_empty_uid :
  collection (notesCollection (VStr EmptyString))
  = inl (Runtime (InvalidReference ["journal"; "notes"])).
Proof. reflexivity. Qed.

(** The landing-page documents of the section names used below. *)
Lemma doc_path_section k :
  doc_path (sectionDocRef (key_name k)) = inr (sectionDocRef (key_name k)).
Proof. by destruct k. Qed.

Lemma doc_path_heroSection :
  doc_path (sectionDocRef "heroSection") = inr (sectionDocRef "heroSection").
Proof. reflexivity. Qed.

Lemma doc_path_toString :
  doc_path (sectionDocRef "toString") = inr "er_landing_page/toString".
Proof. reflexivity. Qed.

(** ** Uploads and [Promise.all] *)

Lemma issue_uploads_run env files : ∀ i w,
  issue_uploads env i files w =
    (Normal (imap (λ j, fileUpload_reply env (i + j)) files),
     mkWorld (store w) (remote w)
       (log w ++ ((λ f, Called (FileUpload f)) <$> files)) (inflight w)).
Proof.
  induction files as [|f files IH]; intros i w.
  - cbn. unfold mret, M_ret. rewrite app_nil_r. by destruct w.
  - cbn [issue_uploads]. unfold mbind, M_bind, emit, mret, M_ret.
    rewrite IH. cbn. rewrite Nat.add_0_r. rewrite <- app_assoc. cbn.
    do 3 f_equal. apply imap_ext. intros j x _. cbn. f_equal. lia.
Qed.

Lemma issue_uploads_replies env files w :
  issue_uploads env 0 files w =
    (Normal (upload_replies env files),
     mkWorld (store w) (remote w)
       (log w ++ ((λ f, Called (FileUpload f)) <$> files)) (inflight w)).
Proof. by rewrite issue_uploads_run. Qed.

Lemma upload_replies_lookup env files i f :
  files !! i = Some f →
  upload_replies env files !! i = Some (fileUpload_reply env i f).
Proof. intros H. unfold upload_replies. by rewrite list_lookup_imap, H. Qed.

Lemma dispatched_uploads (fs : list File) :
  omap (λ e, match e with Dispatched a => Some a | _ => None end)
    ((λ f, Called (FileUpload f)) <$> fs) = [].
Proof. induction fs as [|f fs IH]; [done|]. cbn. apply IH. Qed.

(** No rejection in a batch means every reply is a url. *)
Lemma earliest_rejection_None rs :
  earliest_rejection rs = None ↔
  ∀ i t res, rs !! i = Some (t, res) → ∃ url, res = inr url.
Proof.
  induction rs as [|[t [m|u]] rs IH]; cbn.
  - split; [intros _ i t res H; by rewrite lookup_nil in H | done].
  - split.
    + destruct (earliest_rejection rs) as [[t' m']|]; [case_match|]; done.
    + intros H. destruct (H 0 t (inl m) eq_refl) as [? ?]. done.
  - rewrite IH. split.
    + intros H [|i] t' res; cbn; [intros; simplify_eq; eauto | apply H].
    + intros H i t' res Hi. apply (H (S i) t' res Hi).
Qed.

(** The rejection [Promise.all] reports is the reply of one of the uploads. *)
Lemma earliest_rejection_Some rs t msg :
  earliest_rejection rs = Some (t, msg) → ∃ i, rs !! i = Some (t, inl msg).
Proof.
  revert t msg. induction rs as [|[t0 [m|u]] rs IH]; cbn; intros t msg H.
  - done.
  - destruct (earliest_rejection rs) as [[t' m']|] eqn:E.
    + case_match; simplify_eq.
      * destruct (IH _ _ eq_refl) as [i Hi]. by exists (S i).
      * by exists 0.
    + simplify_eq. by exists 0.
  - destruct (IH _ _ H) as [i Hi]. by exists (S i).
Qed.

Lemma fulfilled_all rs :
  earliest_rejection rs = None →
  length (fulfilled rs) = length rs ∧
  ∀ i t res, rs !! i = Some (t, res) →
             ∃ url, res = inr url ∧ fulfilled rs !! i = Some url.
Proof.
  induction rs as [|[t0 [m|u]] rs IH]; cbn; intros H.
  - split; [done|]. intros i t res Hi. by rewrite lookup_nil in Hi.
  - destruct (earliest_rejection rs) as [[t' m']|]; [case_match|]; done.
  - destruct (IH H) as [Hl Hp].
    split; [unfold fulfilled in *; cbn; by rewrite Hl|].
    intros [|i] t res; cbn; [intros; simplify_eq; eauto | apply Hp].
Qed.

(** When some upload of a batch fails, [Promise.all] rejects, and with the
    message of an upload that failed. *)
Lemma failing_upload_raises env files i f msg :
  files !! i = Some f →
  (fileUpload_reply env i f).2 = inl msg →
  ∃ t msg' j f',
    earliest_rejection (upload_replies env files) = Some (t, msg') ∧
    files !! j = Some f' ∧ fileUpload_reply env j f' = (t, inl msg').
Proof.
  intros Hf Hmsg.
  destruct (earliest_rejection (upload_replies env files)) as [[t msg']|] eqn:E.
  - exists t, msg'. apply earliest_rejection_Some in E as [j Hj].
    unfold upload_replies in Hj. rewrite list_lookup_imap in Hj.
    destruct (files !! j) as [f'|] eqn:Hf'; [|done].
    exists j, f'. cbn in Hj. by simplify_eq.
  - rewrite earliest_rejection_None in E.
    pose proof (upload_replies_lookup env _ _ _ Hf) as Hl.
    destruct (fileUpload_reply env i f) as [t res]. cbn in Hmsg. subst res.
    destruct (E _ _ _ Hl) as [? ?]. done.
Qed.

(** ** The saving flag *)

Lemma startNewNote_resets_isSaving env s r segs :
  collection (notesCollection (uid (auth s))) = inr segs →
  isSaving (dashboard (store (run (startNewNote env) (init s r)).2)) = false.
Proof. intros Hc. unfold startNewNote. unfold_m. rewrite Hc. cbn. by cases. Qed.

Lemma startSaveNotes_resets_isSaving env s r :
  isSaving (dashboard (store (run (startSaveNotes env) (init s r)).2)) = false.
Proof. unfold startSaveNotes. unfold_m. by cases. Qed.

Lemma startUploadingFiles_resets_isSaving env files s r :
  isSaving (dashboard (store (run (startUploadingFiles env files) (init s r)).2))
  = false.
Proof.
  unfold startUploadingFiles. unfold_m. rewrite issue_uploads_replies. cbn.
  by cases.
Qed.

Lemma startLoadingNotes_keeps_isSaving env s r :
  isSaving (dashboard (store (run (startLoadingNotes env) (init s r)).2))
  = isSaving (dashboard s).
Proof. unfold_m. by cases. Qed.

(** C1: after every one of the five note operations, whatever its outcome,
    [isSaving] is false.  The three lemmas above give this for
    [startNewNote], [startSaveNotes] and [startUploadingFiles], whose
    [finally] block resets the flag.  [startDeletingNote] has no such block:
    whatever the store answers, it ends with [isSaving] true, it never
    dispatches [resetIsSaving], and the reload it leaves in flight does not
    reset the flag either. *)
Theorem startDeletingNote_leaves_isSaving_set env s r :
  let w := (run (startDeletingNote env) (init s r)).2 in
  isSaving (dashboard (store w)) = true ∧
  (resetIsSaving ∉ dispatched w) ∧
  isSaving (dashboard (store (settle_inflight env w))) = true.
Proof.
  unfold startDeletingNote, dispatched. unfold_m.
  cases; unfold_m; cases; (split; [done|split; [|done]]).
  all: repeat (apply not_elem_of_cons; split; [done|]); apply not_elem_of_nil.
Qed.

(** ** Creating a note *)

(** [startLoadingNotes] checks the user id before anything else: without
    one it rejects at once and calls nothing. *)
Lemma startLoadingNotes_without_uid env s r :
  truthy (uid (auth s)) = false →
  run (startLoadingNotes env) (init s r) =
    (Rejected (Error "El UID del usuario no existe!"), init s r).
Proof. intros Hu. unfold_m. by rewrite Hu. Qed.

(** The reference of the new document is built before the [try]: when
    [collection] refuses the path, [startNewNote] is rejected with that
    error, nothing is written or reported, and the flag it set stays set. *)
Lemma startNewNote_invalid_collection env s r e :
  collection (notesCollection (uid (auth s))) = inl e →
  let res := run (startNewNote env) (init s r) in
  res.1 = Rejected e ∧ calls res.2 = [] ∧
  dispatched res.2 = [savingNewNote] ∧
  isSaving (dashboard (store res.2)) = true.
Proof.
  intros Hc. cbv zeta. unfold startNewNote, calls, dispatched. unfold_m.
  by rewrite Hc.
Qed.

(** C2: without a user id, CreateNote should fail before any remote call.
    [startNewNote] has no such check: when the user id is [undefined] or
    [null] the path of the collection is still a valid one, the write is
    issued under it, and when the store accepts the write the operation
    resolves with the new note active. *)
Theorem startNewNote_without_uid_writes env s r :
  uid (auth s) = VUndefined ∨ uid (auth s) = VNull →
  let path := newDoc env (uid (auth s)) in
  let body := newNote env (length (notes (dashboard s))) in
  let res := run (startNewNote env) (init s r) in
  calls res.2 = [SetDoc path body false] ∧
  (setDoc_fault env path body = None →
   res.1 = Resolved ∧ remote res.2 !! path = Some body ∧
   active (dashboard (store res.2))
   = Some (<["id" := VStr (autoId env)]> body)).
Proof.
  intros Hu. cbv zeta. unfold startNewNote, calls. unfold_m.
  destruct Hu as [Hu|Hu]; rewrite Hu.
  - rewrite collection_undefined. cbn.
    cases; try (rewrite Hu in *; done); (split; [done|]); [done|]. intros _.
    split; [done|]. split; [|done]. apply lookup_insert_eq.
  - rewrite collection_null. cbn.
    cases; try (rewrite Hu in *; done); (split; [done|]); [done|]. intros _.
    split; [done|]. split; [|done]. apply lookup_insert_eq.
Qed.

Lemma startNewNote_without_uid_writes_witness :
  let s := Demo.root0 VUndefined in
  let path := "undefined/journal/notes/Zx81AbCdEfGhIjKlMnOp" in
  let body := newNote Demo.env0 1 in
  let res := run (startNewNote Demo.env0) (init s ∅) in
  calls res.2 = [SetDoc path body false] ∧
  (setDoc_fault Demo.env0 path body = None →
   res.1 = Resolved ∧ remote res.2 !! path = Some body ∧
   active (dashboard (store res.2))
   = Some (<["id" := VStr (autoId Demo.env0)]> body)).
Proof.
  apply (startNewNote_without_uid_writes Demo.env0 (Demo.root0 VUndefined) ∅).
  by left.
Defined.

(** C8: a CreateNote that succeeds with [n] notes in the collection has
    written a note titled "Nota n+1" with body "Body n+1" and an empty
    attachment list, and no [id] field; the active note is that note with
    the id the store assigned, which is non-empty when the store's ids
    are; and the reload was triggered exactly once. *)
Theorem startNewNote_success env s r w :
  run (startNewNote env) (init s r) = (Resolved, w) →
  autoId env ≠ EmptyString →
  let n := length (notes (dashboard s)) in
  ∃ note id,
    calls w !! 0 = Some (SetDoc (newDoc env (uid (auth s))) note false) ∧
    note !! "title" = Some (VStr ("Nota " +:+ pretty (n + 1))) ∧
    note !! "body" = Some (VStr ("Body " +:+ pretty (n + 1))) ∧
    note !! "imagesUrls" = Some (VArr []) ∧
    note !! "id" = None ∧
    remote w !! newDoc env (uid (auth s)) = Some note ∧
    active (dashboard (store w)) = Some (<["id" := VStr id]> note) ∧
    id = autoId env ∧ id ≠ EmptyString ∧
    reload_triggers w = 1.
Proof.
  intros Hrun Hid. cbv zeta.
  exists (newNote env (length (notes (dashboard s)))), (autoId env).
  revert Hrun. unfold startNewNote, calls, reload_triggers. unfold_m.
  cases; intros; simplify_eq; cbn.
  all: repeat split; try done; try apply lookup_insert_eq.
Qed.

Lemma startNewNote_success_witness :
  let s := Demo.root0 (VStr "u1") in
  let w := (run (startNewNote Demo.env0) (init s ∅)).2 in
  ∃ note id,
    calls w !! 0 = Some (SetDoc (newDoc Demo.env0 (uid (auth s))) note false) ∧
    note !! "title" = Some (VStr "Nota 2") ∧
    note !! "body" = Some (VStr "Body 2") ∧
    note !! "imagesUrls" = Some (VArr []) ∧
    note !! "id" = None ∧
    remote w !! newDoc Demo.env0 (uid (auth s)) = Some note ∧
    active (dashboard (store w)) = Some (<["id" := VStr id]> note) ∧
    id = autoId Demo.env0 ∧ id ≠ EmptyString ∧
    reload_triggers w = 1.
Proof.
  apply (startNewNote_success Demo.env0 (Demo.root0 (VStr "u1")) ∅).
  - vm_compute. reflexivity.
  - discriminate.
Defined.

(** ** Saving the active note *)

(** C3: for an active note with an id that, with the user id, names a
    document, SaveActiveNote issues exactly one write, at the path of that
    document, with the merge option; the body has every field of the note
    except [id]; and when the write goes through, the stored document has
    the body's fields and keeps every field the body does not have. *)
Theorem startSaveNotes_writes_without_id env s r note nid path :
  active (dashboard s) = Some note →
  note !! "id" = Some (VStr nid) →
  doc_path (to_string (uid (auth s)) +:+ "/journal/notes/" +:+ nid)
  = inr path →
  let body := noteToFireStore (Some note) in
  let old := default ∅ (r !! path) in
  let res := run (startSaveNotes env) (init s r) in
  Called (SetDoc path body true) ∈ log res.2 ∧
  (∀ p b m, Called (SetDoc p b m) ∈ log res.2 →
            p = path ∧ b = body ∧ m = true) ∧
  body !! "id" = None ∧
  (∀ k, k ≠ "id" → body !! k = note !! k) ∧
  (setDoc_fault env path body = None →
   ∃ d, remote res.2 !! path = Some d ∧
        (∀ k v, body !! k = Some v → d !! k = Some v) ∧
        (∀ k, body !! k = None → d !! k = old !! k)).
Proof.
  intros Ha Hid Hp. cbv zeta. unfold startSaveNotes. unfold_m. rewrite Ha. cbn.
  rewrite Hid. cbn. unfold noteDocRef. cbn [to_string]. rewrite Hp. cbn.
  set (body := noteToFireStore (Some note)).
  assert (Hin : ∀ (l : list Event) p b m,
             Called (SetDoc p b m)
             ∈ Dispatched setSaving :: Called (SetDoc path body true) :: l →
             (∀ p b m, Called (SetDoc p b m) ∉ l) →
             p = path ∧ b = body ∧ m = true).
  { intros l p b m H Hl. apply elem_of_cons in H as [H|H]; [done|].
    apply elem_of_cons in H as [H|H]; [by simplify_eq|]. by apply Hl in H. }
  assert (Hno : ∀ (l : list Event),
             Forall (λ e, match e with
                          | Called (SetDoc _ _ _) => False
                          | _ => True
                          end) l →
             ∀ p b m, Called (SetDoc p b m) ∉ l).
  { intros l Hl p b m H. rewrite Forall_forall in Hl. by apply Hl in H. }
  split; [|split; [|split; [|split]]].
  - cases; apply elem_of_cons; right; apply elem_of_cons; by left.
  - intros p b m.
    cases; intros H; apply (Hin _ _ _ _ H); apply Hno; repeat constructor.
  - apply lookup_delete_eq.
  - intros k Hk. unfold body, noteToFireStore. cbn. by apply lookup_delete_ne.
  - intros ->. cbn.
    cases; (eexists; split; [apply lookup_insert_eq|]); unfold merge_fields;
      (split; [intros k v Hb; by apply lookup_union_Some_l
              |intros k Hb; by apply lookup_union_r]).
Qed.

Lemma startSaveNotes_writes_without_id_witness :
  let s := Demo.root0 (VStr "u1") in
  let path := "u1/journal/notes/n1" in
  let body := noteToFireStore (Some Demo.note1) in
  let old : obj := default ∅ ((∅ : gmap string obj) !! path) in
  let res := run (startSaveNotes Demo.env0) (init s ∅) in
  Called (SetDoc path body true) ∈ log res.2 ∧
  (∀ p b m, Called (SetDoc p b m) ∈ log res.2 →
            p = path ∧ b = body ∧ m = true) ∧
  body !! "id" = None ∧
  (∀ k, k ≠ "id" → body !! k = Demo.note1 !! k) ∧
  (setDoc_fault Demo.env0 path body = None →
   ∃ d, remote res.2 !! path = Some d ∧
        (∀ k v, body !! k = Some v → d !! k = Some v) ∧
        (∀ k, body !! k = None → d !! k = old !! k)).
Proof.
  apply (startSaveNotes_writes_without_id Demo.env0 (Demo.root0 (VStr "u1")) ∅
           Demo.note1 "n1"); reflexivity.
Defined.

(** An id that is empty, or has a slash in it, names no document under
    the notes of a user: [doc] throws inside the [try], nothing is written,
    and the error is reported like any other. *)
Lemma startSaveNotes_invalid_reference env s r note e :
  active (dashboard s) = Some note →
  doc_path (noteDocRef (uid (auth s)) (default VUndefined (note !! "id")))
  = inl e →
  let res := run (startSaveNotes env) (init s r) in
  res.1 = Rejected (Error "Error actualizando Note!!") ∧
  calls res.2 = [] ∧
  dispatched res.2 = [setSaving; handleError (message env e); resetIsSaving].
Proof.
  intros Ha Hp. cbv zeta. unfold startSaveNotes, calls, dispatched. unfold_m.
  rewrite Ha. cbn. by rewrite Hp.
Qed.

Example noteDocRef_empty_id :
  doc_path (noteDocRef (VStr "u1") (VStr EmptyString))
  = inl (Runtime (InvalidReference ["u1"; "journal"; "notes"])).
Proof. reflexivity. Qed.

(** For a user id and a note id that are each one segment, the document is
    the one at [uid/journal/notes/id]. *)
Lemma doc_path_note uid nid :
  single_segment uid → single_segment nid →
  doc_path (noteDocRef (VStr uid) (VStr nid))
  = inr (uid +:+ "/journal/notes/" +:+ nid).
Proof.
  intros [Hu Hus] [Hn Hns].
  assert (Hp : noteDocRef (VStr uid) (VStr nid)
               = uid +:+ String "/" ("journal/notes" +:+ String "/" nid)).
  { done. }
  unfold doc_path, doc, fromString. rewrite Hp.
  rewrite has_double_slash_app, (has_double_slash_no_slash _ Hus).
  assert (He : ends_with_slash uid = false).
  { clear -Hus. induction uid as [|c u IH]; [done|]. cbn in *.
    apply orb_false_elim in Hus as [Hc Hu]. destruct u; [done|]. by apply IH. }
  rewrite He.
  change ("journal/notes" +:+ String "/" nid)
    with ("journal" +:+ String "/" ("notes" +:+ String "/" nid)).
  rewrite !has_double_slash_app, (has_double_slash_no_slash _ Hns).
  assert (Hst : match nid with
                | String d _ => Ascii.eqb d "/"%char
                | EmptyString => false
                end = false).
  { destruct nid as [|d a]; [done|]. cbn in Hns.
    by apply orb_false_elim in Hns as [? ?]. }
  rewrite Hst. cbn [orb].
  change (has_double_slash "journal" || ends_with_slash "journal" ||
          false || (has_double_slash "notes" || ends_with_slash "notes" ||
          false || false)) with false.
  cbn [orb].
  rewrite !segments_app, (segments_single uid), (segments_single nid) by done.
  done.
Qed.

(** ** Uploading attachments *)

(** C4: UploadAttachments is all or nothing.  If the upload of any file
    fails, the operation is rejected, the active note is as it was and no
    [setPhotosToActiveNote] is dispatched.  If every upload succeeds, the
    operation resolves and appends to the active note's attachment list
    one url per file, the url at position [i] being the one of the file at
    position [i]. *)
Theorem startUploadingFiles_all_or_nothing env s r files :
  let res := run (startUploadingFiles env files) (init s r) in
  ((∃ i f msg, files !! i = Some f ∧ (fileUpload_reply env i f).2 = inl msg) →
   res.1 = Rejected (Error "Error subiendo imagen!!") ∧
   active (dashboard (store res.2)) = active (dashboard s) ∧
   ∀ urls, setPhotosToActiveNote urls ∉ dispatched res.2) ∧
  ((∀ i f, files !! i = Some f →
           ∃ url, (fileUpload_reply env i f).2 = inr url) →
   res.1 = Resolved ∧
   ∃ urls,
     length urls = length files ∧
     (∀ i f, files !! i = Some f →
             ∃ url, urls !! i = Some url ∧
                    (fileUpload_reply env i f).2 = inr url) ∧
     dispatched res.2 = [setSaving; setPhotosToActiveNote urls; resetIsSaving] ∧
     active (dashboard (store res.2)) =
       (λ n, <["imagesUrls" := VArr (attachments n ++ (VStr <$> urls))]> n)
         <$> active (dashboard s)).
Proof.
  cbv zeta. unfold startUploadingFiles. unfold_m.
  rewrite issue_uploads_replies. cbn.
  destruct (earliest_rejection (upload_replies env files)) as [[t msg]|] eqn:E.
  - cbn. split.
    + intros _. split; [done|]. split; [done|]. intros urls.
      unfold dispatched. cbn. rewrite !omap_app, dispatched_uploads. cbn.
      repeat (apply not_elem_of_cons; split; [done|]). apply not_elem_of_nil.
    + intros Hall. apply earliest_rejection_Some in E as [i Hi].
      unfold upload_replies in Hi. rewrite list_lookup_imap in Hi.
      destruct (files !! i) as [f|] eqn:Hf; [|done]. cbn in Hi.
      destruct (Hall i f Hf) as [url Hurl]. simplify_eq.
      rewrite Hi in Hurl. done.
  - cbn. split.
    + intros (i & f & msg & Hf & Hmsg).
      rewrite earliest_rejection_None in E.
      pose proof (upload_replies_lookup env _ _ _ Hf) as Hl.
      destruct (fileUpload_reply env i f) as [t res] eqn:Hr.
      cbn in Hmsg. subst res.
      destruct (E _ _ _ Hl) as [? ?]. done.
    + intros _. split; [done|].
      destruct (fulfilled_all _ E) as [Hlen Hp].
      exists (fulfilled (upload_replies env files)). split; [|split; [|split]].
      * rewrite Hlen. unfold upload_replies. by rewrite length_imap.
      * intros i f Hf. pose proof (upload_replies_lookup env _ _ _ Hf) as Hl.
        destruct (fileUpload_reply env i f) as [t res] eqn:Hr.
        destruct (Hp _ _ _ Hl) as (url & -> & Hu). eauto.
      * unfold dispatched. cbn. by rewrite !omap_app, dispatched_uploads.
      * by destruct (active (dashboard s)).
Qed.

Lemma startUploadingFiles_all_or_nothing_witness :
  let s := Demo.root0 (VStr "u1") in
  (let res := run (startUploadingFiles Demo.env_f2_fails Demo.three_files)
                (init s ∅) in
   res.1 = Rejected (Error "Error subiendo imagen!!") ∧
   active (dashboard (store res.2)) = active (dashboard s) ∧
   ∀ urls, setPhotosToActiveNote urls ∉ dispatched res.2) ∧
  (let res := run (startUploadingFiles Demo.env0 Demo.three_files)
                (init s ∅) in
   res.1 = Resolved ∧
   ∃ urls,
     length urls = 3 ∧
     (∀ i f, Demo.three_files !! i = Some f →
             ∃ url, urls !! i = Some url ∧
                    (fileUpload_reply Demo.env0 i f).2 = inr url) ∧
     dispatched res.2 = [setSaving; setPhotosToActiveNote urls; resetIsSaving] ∧
     active (dashboard (store res.2)) =
       (λ n, <["imagesUrls" := VArr (attachments n ++ (VStr <$> urls))]> n)
         <$> active (dashboard s)).
Proof.
  split.
  - apply (proj1 (startUploadingFiles_all_or_nothing Demo.env_f2_fails
                    (Demo.root0 (VStr "u1")) ∅ Demo.three_files)).
    exists 1, (mkFile "f2"), "413 too large". split; reflexivity.
  - apply (proj2 (startUploadingFiles_all_or_nothing Demo.env0
                    (Demo.root0 (VStr "u1")) ∅ Demo.three_files)).
    intros i f Hf. eexists. reflexivity.
Defined.

(** C5: on the empty file sequence UploadAttachments resolves, and the
    state it leaves is the state it found with [isSaving] false: the log
    shows the flag set, the empty url list applied and the flag reset.  The
    active note, when there is one, is taken to have an attachment list. *)
Theorem startUploadingFiles_empty env s r :
  (∀ n, active (dashboard s) = Some n →
        ∃ l, n !! "imagesUrls" = Some (VArr l)) →
  run (startUploadingFiles env []) (init s r) =
    (Resolved,
     mkWorld
       (mkRoot (auth s)
          (mkDashboard false (isCanceling (dashboard s)) (notes (dashboard s))
             (active (dashboard s)) (errorMessage (dashboard s))
             (activeSection (dashboard s)))
          (heroSection s) (landing s))
       r
       [Dispatched setSaving; Dispatched (setPhotosToActiveNote []);
        Dispatched resetIsSaving]
       []).
Proof.
  intros Hwf. unfold startUploadingFiles. unfold_m.
  destruct (active (dashboard s)) as [n|] eqn:Ha; cbn; [|done].
  destruct (Hwf n eq_refl) as [l Hl].
  unfold attachments. rewrite Hl, app_nil_r. by rewrite insert_id.
Qed.

Lemma startUploadingFiles_empty_witness :
  run (startUploadingFiles Demo.env0 []) (init (Demo.root0 (VStr "u1")) ∅) =
    (Resolved,
     mkWorld (Demo.root0 (VStr "u1")) ∅
       [Dispatched setSaving; Dispatched (setPhotosToActiveNote []);
        Dispatched resetIsSaving]
       []).
Proof.
  apply (startUploadingFiles_empty Demo.env0 (Demo.root0 (VStr "u1")) ∅).
  intros n Hn. exists []. cbn in Hn. injection Hn as <-. reflexivity.
Defined.

(** ** Failures of the adapters *)

(** A reload left in flight by another operation reports its own failure
    when it settles; its rejection has no observer. *)
Lemma reload_failure_reported env uid msg w :
  loadNotes_reply env uid = inl msg →
  log (settle_one env uid w) =
    log w ++ [Dispatched (handleError msg);
              Unhandled (Error "Error cargando notas de la DB!")].
Proof. intros H. unfold_m. rewrite H. cbn. by rewrite <- app_assoc. Qed.

(** C7, as stated, fails on a batch of uploads: of two uploads that are
    rejected, [Promise.all] passes on the one that settles first, and the
    message of the other is never reported.  Here the upload of the first
    file is issued and rejected with "late failure", and no error report
    carries that message. *)
Lemma adapter_failure_not_reported :
  let env := Cases.env_two_failures in
  let res := run (thunk env (UploadAttachments Demo.three_files))
               (init (Demo.root0 (VStr "u1")) ∅) in
  Called (FileUpload (mkFile "f1")) ∈ log res.2 ∧
  fileUpload_reply env 0 (mkFile "f1") = (9, inl "late failure") ∧
  handleError "late failure" ∉ dispatched res.2.
Proof.
  cbv zeta. split; [|split; [reflexivity|]].
  - assert (Hl : log (run (thunk Cases.env_two_failures
                             (UploadAttachments Demo.three_files))
                        (init (Demo.root0 (VStr "u1")) ∅)).2
                 = [Dispatched setSaving; Called (FileUpload (mkFile "f1"));
                    Called (FileUpload (mkFile "f2"));
                    Called (FileUpload (mkFile "f3"));
                    Dispatched (handleError "early failure");
                    Dispatched resetIsSaving])
      by (vm_compute; reflexivity).
    rewrite Hl. apply elem_of_cons. right. apply elem_of_cons. by left.
  - assert (Hd : dispatched (run (thunk Cases.env_two_failures
                                    (UploadAttachments Demo.three_files))
                               (init (Demo.root0 (VStr "u1")) ∅)).2
                 = [setSaving; handleError "early failure"; resetIsSaving])
      by (vm_compute; reflexivity).
    rewrite Hd.
    repeat (apply not_elem_of_cons; split; [done|]). apply not_elem_of_nil.
Qed.

(** C7, amended: in every operation, when the adapter call it awaits is
    rejected with a message (for a batch of uploads: the rejection that
    settles first), the operation dispatches [handleError] with that message
    and is itself rejected with a new error, the one of its [catch] block. *)
Theorem adapter_failure_reported env s r op msg :
  raises env s op msg →
  let res := run (thunk env op) (init s r) in
  res.1 = Rejected (Error (failure_text op)) ∧
  handleError msg ∈ dispatched res.2.
Proof.
  cbv zeta.
  destruct 1 as [segs msg Hc H|msg Hu H|n path msg Ha Hp H|files t msg H
                |n path msg Ha Hp H|section cancelled path msg Hp H];
    cbn [thunk failure_text].
  - unfold startNewNote, dispatched. unfold_m. rewrite Hc. cbn. rewrite H. cbn.
    split; [done|]. set_unfold; tauto.
  - unfold dispatched. unfold_m. rewrite Hu. cbn. rewrite H. cbn.
    split; [done|]. set_unfold; tauto.
  - unfold startSaveNotes, dispatched. unfold_m. rewrite Ha. cbn.
    rewrite Hp. cbn. unfold noteToFireStore in H. cbn in H. rewrite H. cbn.
    split; [done|]. set_unfold; tauto.
  - unfold startUploadingFiles, dispatched. unfold_m.
    rewrite issue_uploads_replies. cbn. rewrite H. cbn.
    split; [done|]. rewrite !omap_app, dispatched_uploads. cbn.
    set_unfold; tauto.
  - unfold startDeletingNote, dispatched. unfold_m. rewrite Ha. cbn.
    rewrite Hp. cbn. rewrite H. cbn. split; [done|]. set_unfold; tauto.
  - unfold resetInfo, dispatched. unfold_m.
    destruct cancelled; cbn; rewrite Hp; cbn; rewrite H; cbn.
    all: split; [done|]; set_unfold; tauto.
Qed.

Lemma adapter_failure_reported_witness :
  let res := run (thunk Demo.env_delete_denied DeleteActiveNote)
               (init (Demo.root0 (VStr "u1")) ∅) in
  res.1 = Rejected (Error "Error eliminando nota!!") ∧
  handleError "permission-denied" ∈ dispatched res.2.
Proof.
  apply (adapter_failure_reported Demo.env_delete_denied
           (Demo.root0 (VStr "u1")) ∅ DeleteActiveNote "permission-denied").
  apply (raises_delete _ _ Demo.note1 "u1/journal/notes/n1"); reflexivity.
Defined.

(** ** Resetting a landing-page section *)

(** A key that names a document and that the table lookup does not find:
    the document is fetched and dropped, nothing else is dispatched and
    [isCanceling] stays set. *)
Lemma resetInfo_no_entry_silent env s r section path :
  idToDispatchMap section = NoEntry →
  doc_path (sectionDocRef section) = inr path →
  getDoc_fault env path = None →
  run (resetInfo env section true) (init s r) =
    (Resolved,
     mkWorld
       (mkRoot (auth s)
          (mkDashboard (isSaving (dashboard s)) true (notes (dashboard s))
             (active (dashboard s)) (errorMessage (dashboard s))
             (activeSection (dashboard s)))
          (heroSection s) (landing s))
       r
       [Dispatched setCanceling; Called (GetDoc path)]
       []).
Proof.
  intros Hn Hp Hf. unfold resetInfo. unfold_m. rewrite Hp. cbn.
  rewrite Hf. cbn. rewrite Hn. by destruct (r !! path).
Qed.

(** With no section name, the default of the first argument, the path has a
    single segment: [doc] throws before anything is fetched, and the error
    is reported and rethrown. *)
Lemma resetInfo_empty_section env s r :
  let e := InvalidReference ["er_landing_page"] in
  let res := run (resetInfo env EmptyString true) (init s r) in
  res.1 = Rejected (Error "Error reseteando la informacion!!") ∧
  calls res.2 = [] ∧
  dispatched res.2 = [setCanceling; handleError (runtime_message env e)].
Proof. done. Qed.

Example resetInfo_unknown_key :
  idToDispatchMap "unknown_key" = NoEntry.
Proof. reflexivity. Qed.

(** Every name inherited from [Object.prototype], [constructor] apart, makes
    the operation fail whatever the store answers. *)
Lemma resetInfo_inherited_members_rejected env s r member cancelled :
  member ∈ object_prototype_members →
  member ≠ "constructor" →
  (run (resetInfo env member cancelled) (init s r)).1 =
    Rejected (Error "Error reseteando la informacion!!").
Proof.
  intros Hin Hne. unfold object_prototype_members in Hin.
  repeat (apply elem_of_cons in Hin as [->|Hin]); try done;
    try (by apply elem_of_nil in Hin).
  all: unfold resetInfo; unfold_m; destruct cancelled; cbn.
  all: eval_doc_path; cbn.
  all: destruct (getDoc_fault env _); cbn; try done.
  all: destruct (r !! _) as [o|]; cbn; done.
Qed.

(** The key [constructor] finds [Object]: a stored document that has a
    [type] field goes through [dispatch] as an action, after which the
    active section is set and the canceling flag reset. *)
Example resetInfo_constructor_run :
  let r : gmap string obj :=
    {[ "er_landing_page/constructor" := {[ "type" := VStr "x" ]} ]} in
  let res := run (resetInfo Demo.env0 "constructor" true)
               (init (Demo.root0 (VStr "u1")) r) in
  res.1 = Resolved ∧
  dispatched res.2 =
    [setCanceling; setActiveSection (VObj {[ "type" := VStr "x" ]});
     resetIsCanceling] ∧
  isCanceling (dashboard (store res.2)) = false.
Proof. vm_compute. repeat split. Qed.

(** C6: a key with no registered handler should be a silent no-op.  The
    table is an object literal, and the key [toString] finds the member
    every object inherits: it has no registered handler, the fetch is
    issued, and the operation then always ends rejected, its last dispatch
    an error report; [isCanceling] stays set. *)
Theorem resetInfo_inherited_member_is_reported env s r :
  let res := run (resetInfo env "toString" true) (init s r) in
  registered_handler "toString" = None ∧
  Called (GetDoc "er_landing_page/toString") ∈ log res.2 ∧
  res.1 = Rejected (Error "Error reseteando la informacion!!") ∧
  (∃ msg, last (log res.2) = Some (Dispatched (handleError msg))) ∧
  isCanceling (dashboard (store res.2)) = true.
Proof.
  cbv zeta. unfold resetInfo. unfold_m.
  split; [done|]. eval_doc_path. cbn.
  destruct (getDoc_fault env _) as [msg|]; cbn.
  - split; [set_unfold; tauto|]. split; [done|]. split; [by eexists|done].
  - split; [set_unfold; tauto|]. split; [done|]. split; [by eexists|done].
Qed.

(** For the seven sections other than the hero section, a document that
    does not exist is handed on as [undefined] and the reset succeeds. *)
Lemma resetInfo_other_sections_missing_document env s r k cancelled :
  k ≠ heroSectionKey →
  getDoc_fault env (sectionDocRef (key_name k)) = None →
  r !! sectionDocRef (key_name k) = None →
  let res := run (resetInfo env (key_name k) cancelled) (init s r) in
  res.1 = Resolved ∧
  dispatched res.2 =
    (if cancelled then [setCanceling] else []) ++
    [setSectionInfo k VUndefined; setActiveSection VUndefined] ++
    (if cancelled then [resetIsCanceling] else []) ∧
  isCanceling (dashboard (store res.2)) =
    (if cancelled then false else isCanceling (dashboard s)) ∧
  activeSection (dashboard (store res.2)) = VUndefined.
Proof.
  intros Hk Hf Hr. cbv zeta. unfold resetInfo, dispatched. unfold_m.
  destruct cancelled; cbn; rewrite doc_path_section; cbn; rewrite Hf; cbn;
    rewrite Hr; cbn; by destruct k.
Qed.

(** Whatever the store answers, resetting the hero section is rejected:
    document data is an object or [undefined], never an array. *)
Lemma resetInfo_heroSection_rejected env s r cancelled :
  (run (resetInfo env "heroSection" cancelled) (init s r)).1 =
    Rejected (Error "Error reseteando la informacion!!").
Proof.
  unfold resetInfo. unfold_m. destruct cancelled; cbn.
  all: eval_doc_path; cbn.
  all: destruct (getDoc_fault env _); cbn; [done|].
  all: destruct (r !! _); cbn; done.
Qed.

(** C9: a missing document should pass as a success for every registered
    key.  For [heroSection] it does not: the handler is dispatched with
    [undefined], its reducer throws on [undefined.find], and the operation
    reports the error and is rejected; the active section is not set and
    [isCanceling] is not reset. *)
Theorem resetInfo_heroSection_missing_document env s r cancelled :
  getDoc_fault env (sectionDocRef "heroSection") = None →
  r !! sectionDocRef "heroSection" = None →
  let res := run (resetInfo env "heroSection" cancelled) (init s r) in
  registered_handler "heroSection" = Some heroSectionKey ∧
  res.1 = Rejected (Error "Error reseteando la informacion!!") ∧
  dispatched res.2 =
    (if cancelled then [setCanceling] else []) ++
    [setHeroSectionInfo VUndefined;
     handleError (runtime_message env (ReadOfNullish VUndefined "find"))] ∧
  isCanceling (dashboard (store res.2))
  = cancelled || isCanceling (dashboard s) ∧
  activeSection (dashboard (store res.2)) = activeSection (dashboard s).
Proof.
  intros Hf Hr. cbv zeta. unfold resetInfo, dispatched. unfold_m.
  split; [done|].
  destruct cancelled; cbn; rewrite doc_path_heroSection; cbn; rewrite Hf; cbn;
    rewrite Hr; cbn; done.
Qed.

Lemma resetInfo_heroSection_missing_document_witness :
  let res := run (resetInfo Demo.env0 "heroSection" true)
               (init (Demo.root0 (VStr "u1")) ∅) in
  registered_handler "heroSection" = Some heroSectionKey ∧
  res.1 = Rejected (Error "Error reseteando la informacion!!") ∧
  dispatched res.2 =
    [setCanceling; setHeroSectionInfo VUndefined;
     handleError "Cannot read properties of undefined (reading 'find')"] ∧
  isCanceling (dashboard (store res.2)) = true ∧
  activeSection (dashboard (store res.2)) = VUndefined.
Proof.
  apply (resetInfo_heroSection_missing_document Demo.env0
           (Demo.root0 (VStr "u1")) ∅ true); reflexivity.
Defined.

(** ** The hero section handler *)

Lemma id_is_spec (item : obj) (x : string) :
  strict_eq_str (default VUndefined (item !! "id")) x = true ↔
  item !! "id" = Some (VStr x).
Proof.
  destruct (item !! "id") as [[| |b|t|l|o]|]; cbn;
    try (split; [done|intros; simplify_eq]).
  rewrite String.eqb_eq. split; [by intros ->|by intros [= ->]].
Qed.

Lemma find_by_id_objects (x : string) (items : list obj) :
  ∃ v, find_by_id x (VObj <$> items) = inr v ∧ first_with_id x items v.
Proof.
  induction items as [|item items (v & Hv & IH)]; cbn.
  - exists VUndefined. split; [done|]. right. split; [|done].
    intros item H. by apply elem_of_nil in H.
  - destruct (strict_eq_str (default VUndefined (item !! "id")) x) eqn:E.
    + exists (VObj item). split; [done|]. left. exists 0, item.
      apply id_is_spec in E. repeat split; try done. intros j other Hj. lia.
    + exists v. split; [done|].
      assert (Hne : item !! "id" ≠ Some (VStr x)).
      { intros H. apply id_is_spec in H. congruence. }
      destruct IH as [(i & it & Hi & Hid & Hbefore & ->)|[Hnone ->]].
      * left. exists (S i), it. repeat split; try done.
        intros [|j] other Hj; cbn; [intros; by simplify_eq|].
        apply Hbefore. lia.
      * right. split; [|done].
        intros it [->|Hin]%elem_of_cons; [done|by apply Hnone].
Qed.

(** C10: on a payload that is a sequence of items, the hero section handler
    stores under [imageSection] the first item whose [id] is "imageSection"
    and under [textSection] the first whose [id] is "textSection", each
    [undefined] when there is no such item, and changes nothing else; a
    payload that is not a sequence makes it throw. *)
Theorem setHeroSectionInfo_finds_first (st : HeroSectionState) :
  (∀ items : list obj,
     ∃ st' img txt,
       heroSectionSlice st (setHeroSectionInfo (VArr (VObj <$> items)))
       = inr st' ∧
       hero_info st' !! "imageSection" = Some img ∧
       hero_info st' !! "textSection" = Some txt ∧
       first_with_id "imageSection" items img ∧
       first_with_id "textSection" items txt ∧
       (∀ k, k ≠ "imageSection" → k ≠ "textSection" →
             hero_info st' !! k = hero_info st !! k) ∧
       hero_isSaving st' = hero_isSaving st) ∧
  (∀ payload,
     match payload with
     | VArr _ => True
     | _ => ∃ e, heroSectionSlice st (setHeroSectionInfo payload)
                 = inl (Runtime e)
     end).
Proof.
  split.
  - intros items. cbn.
    destruct (find_by_id_objects "imageSection" items) as (img & -> & Himg).
    destruct (find_by_id_objects "textSection" items) as (txt & -> & Htxt).
    eexists _, img, txt. split; [done|]. cbn.
    split; [by rewrite lookup_insert_ne, lookup_insert_eq|].
    split; [by rewrite lookup_insert_eq|].
    repeat split; try done.
    intros k H1 H2. by rewrite !lookup_insert_ne.
  - intros [| |b|t|l|o]; cbn; eauto.
Qed.

Example setHeroSectionInfo_run :
  let text : obj := {[ "id" := VStr "textSection"; "title" := VStr "Hola" ]} in
  let other : obj := {[ "id" := VStr "banner" ]} in
  heroSectionSlice (mkHero false ∅)
    (setHeroSectionInfo (VArr [VObj other; VObj text; VObj text]))
  = inr (mkHero false
           {[ "imageSection" := VUndefined; "textSection" := VObj text ]}).
Proof. vm_compute. reflexivity. Qed.

(** ** Further properties of the thunks *)

(** *** Loading the notes *)

(** X1: [startLoadingNotes] looks at the user id first.  With a truthy id it
    issues exactly one fetch, for that id; with [undefined], [null], [false]
    or the empty string it is rejected at once, and nothing is called,
    dispatched or changed. *)
Theorem startLoadingNotes_guard env s r :
  let res := run (startLoadingNotes env) (init s r) in
  if truthy (uid (auth s))
  then calls res.2 = [LoadNotes (uid (auth s))]
  else res = (Rejected (Error "El UID del usuario no existe!"), init s r).
Proof.
  cbv zeta. unfold calls. unfold_m.
  destruct (truthy (uid (auth s))); cbn; [|done].
  by destruct (loadNotes_reply env _).
Qed.

(** X2: with a user id, [startLoadingNotes] touches the dashboard only: on a
    reply it dispatches [setNotes] with the whole reply and nothing else; on
    a failure the collection stays as it was and only the error message is
    recorded. *)
Theorem startLoadingNotes_replaces_or_keeps env s r :
  truthy (uid (auth s)) = true →
  let res := run (startLoadingNotes env) (init s r) in
  let d := dashboard s in
  remote res.2 = r ∧ auth (store res.2) = auth s ∧
  heroSection (store res.2) = heroSection s ∧
  landing (store res.2) = landing s ∧
  match loadNotes_reply env (uid (auth s)) with
  | inr l =>
      res.1 = Resolved ∧
      dashboard (store res.2) =
        mkDashboard (isSaving d) (isCanceling d) l (active d)
          (errorMessage d) (activeSection d) ∧
      dispatched res.2 = [setNotes l]
  | inl msg =>
      res.1 = Rejected (Error "Error cargando notas de la DB!") ∧
      dashboard (store res.2) =
        mkDashboard (isSaving d) (isCanceling d) (notes d) (active d)
          (Some msg) (activeSection d) ∧
      dispatched res.2 = [handleError msg]
  end.
Proof.
  intros Hu. cbv zeta. unfold dispatched. unfold_m. rewrite Hu. cbn.
  by destruct (loadNotes_reply env _).
Qed.

Lemma startLoadingNotes_replaces_or_keeps_witness :
  let res := run (startLoadingNotes Cases.env_reload_fails)
               (init (Demo.root0 (VStr "u1")) ∅) in
  let d := Demo.dash0 in
  remote res.2 = ∅ ∧ auth (store res.2) = mkAuth (VStr "u1") ∧
  heroSection (store res.2) = mkHero false ∅ ∧
  landing (store res.2) = ∅ ∧
  (res.1 = Rejected (Error "Error cargando notas de la DB!") ∧
   dashboard (store res.2) =
     mkDashboard (isSaving d) (isCanceling d) (notes d) (active d)
       (Some "offline") (activeSection d) ∧
   dispatched res.2 = [handleError "offline"]).
Proof.
  apply (startLoadingNotes_replaces_or_keeps Cases.env_reload_fails
           (Demo.root0 (VStr "u1")) ∅). reflexivity.
Defined.

(** *** The saving flag and the frame of the note thunks *)

(** X3: [startSaveNotes] and [startUploadingFiles] end with [isSaving]
    false and with [resetIsSaving] as their very last step, whatever the
    state, the files and the replies.  So does [startNewNote] when the path
    of the notes collection is a valid one; when it is not, the reference
    is refused before the [try] is entered, and the flag set by
    [savingNewNote] stays set. *)
Theorem finally_resets_isSaving env s r :
  let ends_reset (res : Outcome * World) :=
    isSaving (dashboard (store res.2)) = false ∧
    last (log res.2) = Some (Dispatched resetIsSaving) in
  match collection (notesCollection (uid (auth s))) with
  | inr _ => ends_reset (run (startNewNote env) (init s r))
  | inl e =>
      run (startNewNote env) (init s r) =
        (Rejected e,
         mkWorld
           (mkRoot (auth s) (dashboardSlice (dashboard s) savingNewNote)
              (heroSection s) (landing s))
           r [Dispatched savingNewNote] []) ∧
      isSaving (dashboardSlice (dashboard s) savingNewNote) = true
  end ∧
  ends_reset (run (startSaveNotes env) (init s r)) ∧
  ∀ files, ends_reset (run (startUploadingFiles env files) (init s r)).
Proof.
  cbv zeta. split; [|split; [|intros files]].
  - unfold startNewNote. unfold_m.
    destruct (collection (notesCollection (uid (auth s)))); cbn; [done|].
    by cases.
  - unfold startSaveNotes. unfold_m. by cases.
  - unfold startUploadingFiles. unfold_m. rewrite issue_uploads_replies. cbn.
    cases; (split; [done|]); by rewrite !app_comm_cons, last_snoc.
Qed.

(** X4: when the write of [startNewNote] is reached and rejected, the store
    keeps its documents, no reload is triggered or left in flight, the active note and
    the collection are as before, and the only trace in the state is the
    recorded message. *)
Theorem startNewNote_failure_frame env s r segs msg :
  collection (notesCollection (uid (auth s))) = inr segs →
  setDoc_fault env (newDoc env (uid (auth s)))
    (newNote env (length (notes (dashboard s)))) = Some msg →
  let res := run (startNewNote env) (init s r) in
  let d := dashboard s in
  remote res.2 = r ∧
  store res.2 =
    mkRoot (auth s)
      (mkDashboard false (isCanceling d) (notes d) (active d) (Some msg)
         (activeSection d))
      (heroSection s) (landing s) ∧
  reload_triggers res.2 = 0 ∧
  inflight res.2 = [] ∧
  dispatched res.2 = [savingNewNote; handleError msg; resetIsSaving].
Proof.
  intros Hc H. cbv zeta.
  unfold startNewNote, reload_triggers, dispatched. unfold_m.
  rewrite Hc. cbn. rewrite H. cbn. done.
Qed.

Lemma startNewNote_failure_frame_witness :
  let s := Demo.root0 (VStr "u1") in
  let res := run (startNewNote Cases.env_setDoc_fails) (init s ∅) in
  let d := dashboard s in
  remote res.2 = ∅ ∧
  store res.2 =
    mkRoot (auth s)
      (mkDashboard false (isCanceling d) (notes d) (active d)
         (Some "unavailable") (activeSection d))
      (heroSection s) (landing s) ∧
  reload_triggers res.2 = 0 ∧
  inflight res.2 = [] ∧
  dispatched res.2 = [savingNewNote; handleError "unavailable"; resetIsSaving].
Proof.
  apply (startNewNote_failure_frame Cases.env_setDoc_fails
           (Demo.root0 (VStr "u1")) ∅ ["u1"; "journal"; "notes"] "unavailable");
    reflexivity.
Defined.

(** X5: without an active note, [startSaveNotes] and [startDeletingNote]
    fail on reading [id] before they reach the store: no remote call, the
    runtime's message reported, the operation rejected with its own text. *)
Theorem no_active_note_no_remote_call env s r :
  active (dashboard s) = None →
  let msg := runtime_message env (ReadOfNullish VNull "id") in
  let save := run (startSaveNotes env) (init s r) in
  let del := run (startDeletingNote env) (init s r) in
  (save.1 = Rejected (Error "Error actualizando Note!!") ∧
   calls save.2 = [] ∧ remote save.2 = r ∧
   dispatched save.2 = [setSaving; handleError msg; resetIsSaving]) ∧
  (del.1 = Rejected (Error "Error eliminando nota!!") ∧
   calls del.2 = [] ∧ remote del.2 = r ∧
   dispatched del.2 = [setSaving; handleError msg]).
Proof.
  intros H. cbv zeta. unfold startSaveNotes, startDeletingNote, calls, dispatched.
  unfold_m. rewrite H. cbn. done.
Qed.

Lemma no_active_note_no_remote_call_witness :
  let msg := "Cannot read properties of null (reading 'id')" in
  let save := run (startSaveNotes Demo.env0) (init Cases.root_no_active ∅) in
  let del := run (startDeletingNote Demo.env0) (init Cases.root_no_active ∅) in
  (save.1 = Rejected (Error "Error actualizando Note!!") ∧
   calls save.2 = [] ∧ remote save.2 = ∅ ∧
   dispatched save.2 = [setSaving; handleError msg; resetIsSaving]) ∧
  (del.1 = Rejected (Error "Error eliminando nota!!") ∧
   calls del.2 = [] ∧ remote del.2 = ∅ ∧
   dispatched del.2 = [setSaving; handleError msg]).
Proof.
  apply (no_active_note_no_remote_call Demo.env0 Cases.root_no_active ∅).
  reflexivity.
Defined.

(** X6: a save that reaches the store and goes through leaves the client
    state as it found it,
    saving flag reset: the active note and the collection are not updated
    from the local copy.  It touches no other document and triggers the
    reload once. *)
Theorem startSaveNotes_success_frame env s r note path :
  active (dashboard s) = Some note →
  doc_path (noteDocRef (uid (auth s)) (default VUndefined (note !! "id")))
  = inr path →
  setDoc_fault env path (noteToFireStore (Some note)) = None →
  let res := run (startSaveNotes env) (init s r) in
  let d := dashboard s in
  res.1 = Resolved ∧
  store res.2 =
    mkRoot (auth s)
      (mkDashboard false (isCanceling d) (notes d) (active d) (errorMessage d)
         (activeSection d))
      (heroSection s) (landing s) ∧
  (∀ p, p ≠ path → remote res.2 !! p = r !! p) ∧
  dispatched res.2 = [setSaving; resetIsSaving] ∧
  reload_triggers res.2 = 1.
Proof.
  intros Ha Hp Hf. cbv zeta.
  unfold startSaveNotes, reload_triggers, dispatched. unfold_m. rewrite Ha. cbn.
  rewrite Hp. cbn. unfold noteToFireStore in Hf. cbn in Hf. rewrite Hf. cbn.
  cases; repeat split; try done; intros p Hne; by rewrite lookup_insert_ne.
Qed.

Lemma startSaveNotes_success_frame_witness :
  let s := Demo.root0 (VStr "u1") in
  let res := run (startSaveNotes Demo.env0) (init s Cases.landing_store) in
  res.1 = Resolved ∧
  store res.2 = s ∧
  (∀ p, p ≠ "u1/journal/notes/n1" →
        remote res.2 !! p = Cases.landing_store !! p) ∧
  dispatched res.2 = [setSaving; resetIsSaving] ∧
  reload_triggers res.2 = 1.
Proof.
  apply (startSaveNotes_success_frame Demo.env0 (Demo.root0 (VStr "u1"))
           Cases.landing_store Demo.note1 "u1/journal/notes/n1"); reflexivity.
Defined.

(** X7: a delete that reaches the store and goes through removes the document of the active note
    and no other, and dispatches nothing but [setSaving]: the deleted note
    stays the active note and stays in the collection until the reload
    settles. *)
Theorem startDeletingNote_success env s r note path :
  active (dashboard s) = Some note →
  doc_path (noteDocRef (uid (auth s)) (default VUndefined (note !! "id")))
  = inr path →
  deleteDoc_fault env path = None →
  let res := run (startDeletingNote env) (init s r) in
  res.1 = Resolved ∧
  calls res.2 !! 0 = Some (DeleteDoc path) ∧
  remote res.2 = delete path r ∧
  dispatched res.2 = [setSaving] ∧
  active (dashboard (store res.2)) = Some note ∧
  notes (dashboard (store res.2)) = notes (dashboard s) ∧
  reload_triggers res.2 = 1.
Proof.
  intros Ha Hp Hf. cbv zeta.
  unfold startDeletingNote, reload_triggers, dispatched, calls. unfold_m.
  rewrite Ha. cbn. rewrite Hp. cbn. rewrite Hf. cbn. by cases.
Qed.

Lemma startDeletingNote_success_witness :
  let s := Demo.root0 (VStr "u1") in
  let r : gmap string obj := {[ "u1/journal/notes/n1" := Demo.note1 ]} in
  let res := run (startDeletingNote Demo.env0) (init s r) in
  res.1 = Resolved ∧
  calls res.2 !! 0 = Some (DeleteDoc "u1/journal/notes/n1") ∧
  remote res.2 = delete "u1/journal/notes/n1" r ∧
  dispatched res.2 = [setSaving] ∧
  active (dashboard (store res.2)) = Some Demo.note1 ∧
  notes (dashboard (store res.2)) = [Demo.note1] ∧
  reload_triggers res.2 = 1.
Proof.
  apply (startDeletingNote_success Demo.env0 (Demo.root0 (VStr "u1"))
           {[ "u1/journal/notes/n1" := Demo.note1 ]} Demo.note1
           "u1/journal/notes/n1"); reflexivity.
Defined.

(** *** Operations in sequence *)

(** X8: when the notes collection of the user is a valid reference and
    the fresh id is one segment, creating a note and then deleting the
    active note removes exactly the document that was created: the
    reference built from the id is the one that was written to, every
    other document is as before, and a store that had nothing at that path
    is back to what it was. *)
Theorem create_then_delete env s r segs :
  collection (notesCollection (uid (auth s))) = inr segs →
  single_segment (autoId env) →
  let path := newDoc env (uid (auth s)) in
  setDoc_fault env path (newNote env (length (notes (dashboard s)))) = None →
  deleteDoc_fault env path = None →
  let created := run (startNewNote env) (init s r) in
  let deleted := run (startDeletingNote env) created.2 in
  created.1 = Resolved ∧ deleted.1 = Resolved ∧
  remote deleted.2 !! path = None ∧
  (∀ p, p ≠ path → remote deleted.2 !! p = r !! p) ∧
  (r !! path = None → remote deleted.2 = r).
Proof.
  cbv zeta. intros Hc Hid Hs Hd.
  unfold startNewNote, startDeletingNote. unfold_m. rewrite Hc. cbn.
  rewrite Hs. cbn.
  assert (Hp : doc_path
                 (noteDocRef (uid (auth s))
                    (default VUndefined
                       (<["id":=VStr (autoId env)]>
                          (newNote env (length (notes (dashboard s))))
                        !! "id")))
               = inr (newDoc env (uid (auth s)))).
  { rewrite lookup_insert_eq. by apply (doc_path_new_note env _ segs). }
  cases; rewrite ?Hp in *; cbn in *; cases; try congruence.
  all: repeat split; try done; try apply lookup_delete_eq.
  all: try (intros p Hne; by rewrite lookup_delete_ne, lookup_insert_ne).
  all: intros Hr; by apply delete_insert_id.
Qed.

Lemma create_then_delete_witness :
  let s := Demo.root0 (VStr "u1") in
  let path := "u1/journal/notes/Zx81AbCdEfGhIjKlMnOp" in
  let created := run (startNewNote Demo.env0) (init s Cases.landing_store) in
  let deleted := run (startDeletingNote Demo.env0) created.2 in
  created.1 = Resolved ∧ deleted.1 = Resolved ∧
  remote deleted.2 !! path = None ∧
  (∀ p, p ≠ path → remote deleted.2 !! p = Cases.landing_store !! p) ∧
  (Cases.landing_store !! path = None → remote deleted.2 = Cases.landing_store).
Proof.
  apply (create_then_delete Demo.env0 (Demo.root0 (VStr "u1"))
           Cases.landing_store ["u1"; "journal"; "notes"]);
    try reflexivity. by split.
Defined.

(** X9: when the notes collection of the user is a valid reference and
    the fresh id is one segment, saving right after creating writes to the
    document just created, with the body that was written at creation, and
    leaves the store unchanged: the id the note received is not sent
    back. *)
Theorem create_then_save env s r segs :
  collection (notesCollection (uid (auth s))) = inr segs →
  single_segment (autoId env) →
  let path := newDoc env (uid (auth s)) in
  let note := newNote env (length (notes (dashboard s))) in
  setDoc_fault env path note = None →
  let created := run (startNewNote env) (init s r) in
  let saved := run (startSaveNotes env) created.2 in
  saved.1 = Resolved ∧
  calls saved.2 !! (length (calls created.2)) = Some (SetDoc path note true) ∧
  remote saved.2 = remote created.2 ∧
  remote saved.2 !! path = Some note ∧
  active (dashboard (store saved.2)) = active (dashboard (store created.2)).
Proof.
  cbv zeta. intros Hc Hid Hs.
  unfold startNewNote, startSaveNotes, calls. unfold_m. rewrite Hc. cbn.
  rewrite Hs. cbn.
  assert (Hp : doc_path
                 (noteDocRef (uid (auth s))
                    (default VUndefined
                       (<["id":=VStr (autoId env)]>
                          (newNote env (length (notes (dashboard s))))
                        !! "id")))
               = inr (newDoc env (uid (auth s)))).
  { rewrite lookup_insert_eq. by apply (doc_path_new_note env _ segs). }
  assert (Hb : noteToFireStore
                 (Some (<["id":=VStr (autoId env)]>
                          (newNote env (length (notes (dashboard s))))))
               = newNote env (length (notes (dashboard s)))).
  { unfold noteToFireStore. cbn. by apply delete_insert_id. }
  cases; rewrite ?Hp, ?Hb in *; cbn in *; rewrite ?Hb in *; cases;
    try congruence.
  all: rewrite lookup_insert_eq; cbn; unfold merge_fields.
  all: rewrite (idemp_L (∪) (newNote env (length (notes (dashboard s))))).
  all: rewrite insert_insert_eq, lookup_insert_eq; done.
Qed.

Lemma create_then_save_witness :
  let s := Demo.root0 (VStr "u1") in
  let path := "u1/journal/notes/Zx81AbCdEfGhIjKlMnOp" in
  let note := newNote Demo.env0 1 in
  let created := run (startNewNote Demo.env0) (init s ∅) in
  let saved := run (startSaveNotes Demo.env0) created.2 in
  saved.1 = Resolved ∧
  calls saved.2 !! (length (calls created.2)) = Some (SetDoc path note true) ∧
  remote saved.2 = remote created.2 ∧
  remote saved.2 !! path = Some note ∧
  active (dashboard (store saved.2)) = active (dashboard (store created.2)).
Proof.
  apply (create_then_save Demo.env0 (Demo.root0 (VStr "u1")) ∅
           ["u1"; "journal"; "notes"]); try reflexivity. by split.
Defined.

(** X10: once [startNewNote] has written under a valid collection and
    with a user id, it has resolved, one reload is in flight and the steps were taken in this order: flag, write, reload
    trigger, fetch, active note, flag reset.  When the reload settles the
    new note is still active; a reply replaces the collection, a failure is
    reported and rejected without an observer, and neither changes the
    outcome the caller saw. *)
Theorem create_then_reload env s r segs :
  truthy (uid (auth s)) = true →
  collection (notesCollection (uid (auth s))) = inr segs →
  let u := uid (auth s) in
  let note := newNote env (length (notes (dashboard s))) in
  let active_note := <["id" := VStr (autoId env)]> note in
  setDoc_fault env (newDoc env u) note = None →
  let created := run (startNewNote env) (init s r) in
  let w := settle_inflight env created.2 in
  created.1 = Resolved ∧
  log created.2 =
    [Dispatched savingNewNote; Called (SetDoc (newDoc env u) note false);
     DispatchedThunk; Called (LoadNotes u);
     Dispatched (setActiveNote active_note); Dispatched resetIsSaving] ∧
  inflight created.2 = [u] ∧
  inflight w = [] ∧
  active (dashboard (store w)) = Some active_note ∧
  isSaving (dashboard (store w)) = false ∧
  match loadNotes_reply env u with
  | inr l =>
      notes (dashboard (store w)) = l ∧
      log w = log created.2 ++ [Dispatched (setNotes l)]
  | inl msg =>
      notes (dashboard (store w)) = notes (dashboard s) ∧
      errorMessage (dashboard (store w)) = Some msg ∧
      log w = log created.2 ++
              [Dispatched (handleError msg);
               Unhandled (Error "Error cargando notas de la DB!")]
  end.
Proof.
  intros Hu Hc. cbv zeta. intros Hf.
  unfold startNewNote. unfold_m. rewrite Hc. cbn. rewrite Hf. cbn.
  rewrite Hu. cbn.
  by destruct (loadNotes_reply env _).
Qed.

Lemma create_then_reload_witness :
  let s := Demo.root0 (VStr "u1") in
  let u := VStr "u1" in
  let note := newNote Cases.env_reload_fails 1 in
  let active_note := <["id" := VStr (autoId Cases.env_reload_fails)]> note in
  let created := run (startNewNote Cases.env_reload_fails) (init s ∅) in
  let w := settle_inflight Cases.env_reload_fails created.2 in
  created.1 = Resolved ∧
  log created.2 =
    [Dispatched savingNewNote;
     Called (SetDoc (newDoc Cases.env_reload_fails u) note false);
     DispatchedThunk; Called (LoadNotes u);
     Dispatched (setActiveNote active_note); Dispatched resetIsSaving] ∧
  inflight created.2 = [u] ∧
  inflight w = [] ∧
  active (dashboard (store w)) = Some active_note ∧
  isSaving (dashboard (store w)) = false ∧
  (notes (dashboard (store w)) = notes (dashboard s) ∧
   errorMessage (dashboard (store w)) = Some "offline" ∧
   log w = log created.2 ++
           [Dispatched (handleError "offline");
            Unhandled (Error "Error cargando notas de la DB!")]).
Proof.
  apply (create_then_reload Cases.env_reload_fails (Demo.root0 (VStr "u1")) ∅
           ["u1"; "journal"; "notes"]); reflexivity.
Defined.

(** X11: a create, save or delete that resolves has triggered the reload
    exactly once.  With a user id the fetch is its last remote call and
    stays in flight; without one the reload is rejected unobserved and the
    operation's own call is the only one. *)
Theorem reload_issued_iff_uid env s r op :
  op = CreateNote ∨ op = SaveActiveNote ∨ op = DeleteActiveNote →
  let res := run (thunk env op) (init s r) in
  res.1 = Resolved →
  reload_triggers res.2 = 1 ∧
  if truthy (uid (auth s))
  then inflight res.2 = [uid (auth s)] ∧
       last (calls res.2) = Some (LoadNotes (uid (auth s)))
  else inflight res.2 = [] ∧ length (calls res.2) = 1 ∧
       Unhandled (Error "El UID del usuario no existe!") ∈ log res.2.
Proof.
  intros [->|[->| ->]]; cbv zeta; cbn [thunk].
  - unfold startNewNote, reload_triggers, calls. unfold_m.
    cases; try done; intros _; repeat split; try done; set_unfold; naive_solver.
  - unfold startSaveNotes, reload_triggers, calls. unfold_m.
    cases; try done; intros _; repeat split; try done; set_unfold; naive_solver.
  - unfold startDeletingNote, reload_triggers, calls. unfold_m.
    cases; try done; intros _; repeat split; try done; set_unfold; naive_solver.
Qed.

Lemma reload_issued_iff_uid_witness :
  let res := run (thunk Demo.env0 DeleteActiveNote)
               (init (Demo.root0 VNull) ∅) in
  reload_triggers res.2 = 1 ∧
  (inflight res.2 = [] ∧ length (calls res.2) = 1 ∧
   Unhandled (Error "El UID del usuario no existe!") ∈ log res.2).
Proof.
  apply (reload_issued_iff_uid Demo.env0 (Demo.root0 VNull) ∅ DeleteActiveNote).
  - right. by right.
  - reflexivity.
Defined.

(** *** Uploads *)

(** X13: every file of the batch is handed to [fileUpload], in order and
    once, also when an upload fails; the document store is not touched. *)
Theorem uploads_all_issued env s r files :
  let res := run (startUploadingFiles env files) (init s r) in
  calls res.2 = FileUpload <$> files ∧ remote res.2 = r.
Proof.
  cbv zeta. unfold startUploadingFiles, calls. unfold_m.
  rewrite issue_uploads_replies. cbn.
  assert (Hc : ∀ l : list Event,
    omap (λ e, match e with Called c => Some c | _ => None end)
      (((λ f, Called (FileUpload f)) <$> files) ++ l)
    = (FileUpload <$> files) ++
      omap (λ e, match e with Called c => Some c | _ => None end) l).
  { intros l. induction files as [|f fs IH]; [done|]. cbn. by rewrite IH. }
  cases; rewrite <- ?app_assoc, Hc; cbn; by rewrite app_nil_r.
Qed.

(** Of the rejections of a batch, the reported one settles no later than
    any other. *)
Lemma earliest_rejection_minimal rs t msg :
  earliest_rejection rs = Some (t, msg) →
  ∀ i t' msg', rs !! i = Some (t', inl msg') → t ≤ t'.
Proof.
  revert t msg.
  induction rs as [|[t0 [m|u]] rs IH]; cbn [earliest_rejection];
    intros t msg H i t' msg' Hi.
  - by rewrite lookup_nil in Hi.
  - destruct (earliest_rejection rs) as [[t1 m1]|] eqn:E.
    + destruct (t1 <? t0) eqn:Hlt; simplify_eq.
      * apply Nat.ltb_lt in Hlt. destruct i as [|i]; cbn in Hi; simplify_eq; [lia|].
        by eapply IH.
      * apply Nat.ltb_ge in Hlt. destruct i as [|i]; cbn in Hi; simplify_eq; [lia|].
        pose proof (IH _ _ eq_refl _ _ _ Hi). lia.
    + simplify_eq. destruct i as [|i]; cbn in Hi; simplify_eq; [lia|].
      rewrite earliest_rejection_None in E. by destruct (E _ _ _ Hi).
  - destruct i as [|i]; cbn in Hi; simplify_eq. by eapply IH.
Qed.

(** X14: when an upload fails, exactly one error is reported between the
    flag being set and reset, and it is the message of the failing upload
    that settled first, not of the first failing file in the list. *)
Theorem upload_failure_reports_earliest env s r files i f msg0 :
  files !! i = Some f →
  (fileUpload_reply env i f).2 = inl msg0 →
  let res := run (startUploadingFiles env files) (init s r) in
  ∃ j g t msg,
    files !! j = Some g ∧ fileUpload_reply env j g = (t, inl msg) ∧
    (∀ k h t' msg', files !! k = Some h →
                    fileUpload_reply env k h = (t', inl msg') → t ≤ t') ∧
    dispatched res.2 = [setSaving; handleError msg; resetIsSaving] ∧
    errorMessage (dashboard (store res.2)) = Some msg.
Proof.
  intros Hf Hm. cbv zeta.
  destruct (failing_upload_raises env files i f msg0 Hf Hm)
    as (t & msg & j & g & E & Hg & Hr).
  exists j, g, t, msg. split; [done|]. split; [done|]. split.
  - intros k h t' msg' Hk Hh.
    apply (earliest_rejection_minimal _ _ _ E k t' msg').
    by rewrite (upload_replies_lookup env _ _ _ Hk), Hh.
  - unfold startUploadingFiles, dispatched. unfold_m.
    rewrite issue_uploads_replies. cbn. rewrite E. cbn.
    by rewrite !omap_app, dispatched_uploads.
Qed.

Lemma upload_failure_reports_earliest_witness :
  let res := run (startUploadingFiles Cases.env_two_failures Demo.three_files)
               (init (Demo.root0 (VStr "u1")) ∅) in
  ∃ j g t msg,
    Demo.three_files !! j = Some g ∧
    fileUpload_reply Cases.env_two_failures j g = (t, inl msg) ∧
    (∀ k h t' msg', Demo.three_files !! k = Some h →
                    fileUpload_reply Cases.env_two_failures k h = (t', inl msg') →
                    t ≤ t') ∧
    dispatched res.2 = [setSaving; handleError msg; resetIsSaving] ∧
    errorMessage (dashboard (store res.2)) = Some msg.
Proof.
  apply (upload_failure_reports_earliest Cases.env_two_failures
           (Demo.root0 (VStr "u1")) ∅ Demo.three_files 0 (mkFile "f1")
           "late failure"); reflexivity.
Defined.

Example upload_failure_reports_earliest_run :
  dispatched (run (startUploadingFiles Cases.env_two_failures Demo.three_files)
                (init (Demo.root0 (VStr "u1")) ∅)).2
  = [setSaving; handleError "early failure"; resetIsSaving].
Proof. vm_compute. reflexivity. Qed.

(** *** Resetting a section *)

(** X16: for each of the seven sections other than the hero section, a
    fetch that goes through hands the document, or [undefined] when there
    is none, first to the section's handler and then to [setActiveSection];
    the canceling flag is set before and reset after when [cancelled] is
    true and left alone otherwise. *)
Theorem resetInfo_registered_section env s r k cancelled :
  k ≠ heroSectionKey →
  getDoc_fault env (sectionDocRef (key_name k)) = None →
  let data := doc_data r (sectionDocRef (key_name k)) in
  let res := run (resetInfo env (key_name k) cancelled) (init s r) in
  res.1 = Resolved ∧
  dispatched res.2 =
    (if cancelled then [setCanceling] else []) ++
    [setSectionInfo k data; setActiveSection data] ++
    (if cancelled then [resetIsCanceling] else []) ∧
  activeSection (dashboard (store res.2)) = data ∧
  landing (store res.2) = <[key_name k := data]> (landing s) ∧
  isCanceling (dashboard (store res.2)) =
    (if cancelled then false else isCanceling (dashboard s)) ∧
  heroSection (store res.2) = heroSection s ∧
  remote res.2 = r.
Proof.
  intros Hk Hf. cbv zeta. unfold resetInfo, dispatched, doc_data. unfold_m.
  destruct cancelled; cbn; rewrite doc_path_section; cbn; rewrite Hf; cbn;
    destruct (r !! sectionDocRef (key_name k)); cbn; by destruct k.
Qed.

Lemma resetInfo_registered_section_witness :
  let data := VObj Cases.navbar_doc in
  let s := Demo.root0 (VStr "u1") in
  let res := run (resetInfo Demo.env0 "navbar" true) (init s Cases.landing_store) in
  res.1 = Resolved ∧
  dispatched res.2 =
    [setCanceling; setNavbarInfo data; setActiveSection data; resetIsCanceling] ∧
  activeSection (dashboard (store res.2)) = data ∧
  landing (store res.2) = <["navbar" := data]> (landing s) ∧
  isCanceling (dashboard (store res.2)) = false ∧
  heroSection (store res.2) = heroSection s ∧
  remote res.2 = Cases.landing_store.
Proof.
  apply (resetInfo_registered_section Demo.env0 (Demo.root0 (VStr "u1"))
           Cases.landing_store navbar true); done.
Defined.

(** X17: when the section names a document and the fetch of it is
    rejected, [resetInfo] records the message and
    changes nothing else, except that with [cancelled] true the canceling
    flag it set stays set: the [catch] block does not reset it. *)
Theorem resetInfo_fetch_failure env s r section cancelled path msg :
  doc_path (sectionDocRef section) = inr path →
  getDoc_fault env path = Some msg →
  let res := run (resetInfo env section cancelled) (init s r) in
  let d := dashboard s in
  res.1 = Rejected (Error "Error reseteando la informacion!!") ∧
  store res.2 =
    mkRoot (auth s)
      (mkDashboard (isSaving d) (cancelled || isCanceling d) (notes d)
         (active d) (Some msg) (activeSection d))
      (heroSection s) (landing s) ∧
  dispatched res.2 =
    (if cancelled then [setCanceling] else []) ++ [handleError msg] ∧
  remote res.2 = r.
Proof.
  intros Hp Hf. cbv zeta. unfold resetInfo, dispatched. unfold_m.
  destruct cancelled; cbn; rewrite Hp; cbn; rewrite Hf; cbn; [done|].
  by destruct s as [a [] h l].
Qed.

Lemma resetInfo_fetch_failure_witness :
  let s := Demo.root0 (VStr "u1") in
  let d := dashboard s in
  let res := run (resetInfo Cases.env_getDoc_fails "navbar" true) (init s ∅) in
  res.1 = Rejected (Error "Error reseteando la informacion!!") ∧
  store res.2 =
    mkRoot (auth s)
      (mkDashboard (isSaving d) true (notes d) (active d) (Some "unavailable")
         (activeSection d))
      (heroSection s) (landing s) ∧
  dispatched res.2 = [setCanceling; handleError "unavailable"] ∧
  remote res.2 = ∅.
Proof.
  apply (resetInfo_fetch_failure Cases.env_getDoc_fails (Demo.root0 (VStr "u1"))
           ∅ "navbar" true "er_landing_page/navbar" "unavailable");
    reflexivity.
Defined.


(** *** The hero section handler on other payloads *)

Lemma find_by_id_nullish (x : string) (pre : list obj) (v : value)
    (rest : list value) :
  (∀ o, o ∈ pre → o !! "id" ≠ Some (VStr x)) →
  get_prop v "id" = None →
  find_by_id x ((VObj <$> pre) ++ v :: rest)
  = inl (Runtime (ReadOfNullish v "id")).
Proof.
  intros Hpre Hv. induction pre as [|o pre IH]; cbn.
  - by rewrite Hv.
  - destruct (strict_eq_str (default VUndefined (o !! "id")) x) eqn:E.
    + apply id_is_spec in E. destruct (Hpre o); [by left|done].
    + apply IH. intros o' Ho'. apply Hpre. by right.
Qed.

Lemma find_by_id_app (x : string) (l rest : list value) (v : value) :
  find_by_id x l = inr v → v ≠ VUndefined →
  find_by_id x (l ++ rest) = inr v.
Proof.
  intros H Hv. induction l as [|item l IH]; cbn in *; [by simplify_eq|].
  destruct (get_prop item "id") as [i|]; [|done].
  destruct (strict_eq_str i x); [done|]. by apply IH.
Qed.

(** X19: once the payload holds an item for each of the two ids, what
    follows is never looked at: appending anything, a [null] included,
    gives the same state. *)
Theorem setHeroSectionInfo_stops_at_matches st st' (l rest : list value) :
  heroSectionSlice st (setHeroSectionInfo (VArr l)) = inr st' →
  hero_info st' !! "imageSection" ≠ Some VUndefined →
  hero_info st' !! "textSection" ≠ Some VUndefined →
  heroSectionSlice st (setHeroSectionInfo (VArr (l ++ rest))) = inr st'.
Proof.
  cbn. intros H Hi Ht.
  destruct (find_by_id "imageSection" l) as [|img] eqn:Ei; [done|].
  destruct (find_by_id "textSection" l) as [|txt] eqn:Et; [done|].
  simplify_eq. cbn in Hi, Ht.
  rewrite lookup_insert_ne, lookup_insert_eq in Hi by done.
  rewrite lookup_insert_eq in Ht.
  rewrite (find_by_id_app _ _ rest _ Ei), (find_by_id_app _ _ rest _ Et);
    [done|congruence|congruence].
Qed.

Lemma setHeroSectionInfo_stops_at_matches_witness :
  heroSectionSlice (mkHero false ∅)
    (setHeroSectionInfo
       (VArr ([VObj Cases.text_item; VObj Cases.image_item] ++ [VNull])))
  = inr Cases.hero_state.
Proof.
  apply (setHeroSectionInfo_stops_at_matches (mkHero false ∅) Cases.hero_state
           [VObj Cases.text_item; VObj Cases.image_item] [VNull]).
  - vm_compute. reflexivity.
  - vm_compute. discriminate.
  - vm_compute. discriminate.
Defined.

(** X20: a [null] or [undefined] element that comes before any item with
    id "imageSection" makes the handler throw on reading its [id], whatever
    follows it. *)
Theorem setHeroSectionInfo_nullish_item st (pre : list obj) (v : value) (rest : list value) :
  (∀ o, o ∈ pre → o !! "id" ≠ Some (VStr "imageSection")) →
  v = VNull ∨ v = VUndefined →
  heroSectionSlice st (setHeroSectionInfo (VArr ((VObj <$> pre) ++ v :: rest)))
  = inl (Runtime (ReadOfNullish v "id")).
Proof.
  intros Hpre Hv. cbn.
  rewrite (find_by_id_nullish "imageSection" pre v rest Hpre); [done|].
  by destruct Hv as [-> | ->].
Qed.

Lemma setHeroSectionInfo_nullish_item_witness :
  heroSectionSlice (mkHero false ∅)
    (setHeroSectionInfo
       (VArr ((VObj <$> [Cases.text_item]) ++ VNull :: [VObj Cases.image_item])))
  = inl (Runtime (ReadOfNullish VNull "id")).
Proof.
  apply (setHeroSectionInfo_nullish_item (mkHero false ∅) [Cases.text_item]
           VNull [VObj Cases.image_item]).
  - intros o Ho. apply list_elem_of_singleton in Ho as ->. vm_compute. discriminate.
  - by left.
Defined.

(** X21: the handler overwrites both fields and merges nothing: after one
    payload has been stored, storing a second gives the state the second
    alone would have given. *)
Theorem setHeroSectionInfo_overwrites st st1 p1 p2 :
  heroSectionSlice st (setHeroSectionInfo p1) = inr st1 →
  heroSectionSlice st1 (setHeroSectionInfo p2)
  = heroSectionSlice st (setHeroSectionInfo p2).
Proof.
  cbn. intros H.
  destruct (payload_find "imageSection" p1) as [|i1]; [done|].
  destruct (payload_find "textSection" p1) as [|t1]; [done|].
  simplify_eq. cbn.
  destruct (payload_find "imageSection" p2) as [|i2]; [done|].
  destruct (payload_find "textSection" p2) as [|t2]; [done|].
  do 2 f_equal.
  apply map_eq. intros k. rewrite !lookup_insert. by repeat case_decide.
Qed.

Lemma setHeroSectionInfo_overwrites_witness :
  heroSectionSlice Cases.hero_state (setHeroSectionInfo (VArr []))
  = heroSectionSlice (mkHero false ∅) (setHeroSectionInfo (VArr [])).
Proof.
  apply (setHeroSectionInfo_overwrites (mkHero false ∅) Cases.hero_state
           (VArr [VObj Cases.text_item; VObj Cases.image_item]) (VArr [])).
  vm_compute. reflexivity.
Defined.
